(** * gpssnmp: poll a local gpsd for SNMP variables

    A shallow embedding of [clients/gpssnmp.c].  The client opens a session
    with gpsd, polls until a sky view arrives (or gives up), sums the signal
    strength of the satellites used in the fix, and prints the one gauge the
    caller asked for by OID.

    - C [int] and [time_t] values are integers in [Z]; the program never
      relies on wrap-around.
    - C [double] is IEEE 754 binary64, taken from the Standard Library's
      executable specification [SpecFloat] (precision 53, emax 1024).
    - libgps ([gps_open], [gps_stream], [gps_waiting], [gps_read],
      [gps_close]) and the clock are an environment: what they answer is an
      input ([world]), and every call is recorded in a trace of [event]s
      next to what the program writes on stdout and stderr. *)

From Stdlib Require Import ZArith List String Ascii Bool Lia.
From Stdlib Require Import DecimalString.
From Stdlib Require Import Floats.SpecFloat.
Import ListNotations.

Open Scope Z_scope.

(** ** C [double] *)

Module Double.

Definition prec : Z := 53.
Definition emax : Z := 1024.

Definition t : Type := spec_float.

Definition add : t -> t -> t := SFadd prec emax.
Definition div : t -> t -> t := SFdiv prec emax.
Definition ltb : t -> t -> bool := SFltb.

(** Conversion of a C [int] to [double] (exact below 2^53). *)
Definition of_int (z : Z) : t := binary_normalize prec emax z 0 false.

(** The constant [0.0]. *)
Definition zero : t := S754_zero false.

Definition is_finite (x : t) : bool :=
  match x with
  | S754_zero _ | S754_finite _ _ _ => true
  | S754_infinity _ | S754_nan => false
  end.

(** [+0.0], a positive finite number or [+inf]. *)
Definition nonneg (x : t) : bool :=
  match x with
  | S754_zero false | S754_finite false _ _ | S754_infinity false => true
  | _ => false
  end.

End Double.

Definition double : Type := Double.t.

(** ** The fields of [gps.h] the client reads *)

Module satellite_t.
Record t : Type := { used : bool; ss : double }.
End satellite_t.

Record timespec : Type := { tv_sec : Z; tv_nsec : Z }.

(** [skyview] is the whole C array (MAXCHANNELS entries in [gps.h]), not
    only the entries of the last report. *)
Record gps_data_t : Type := {
  set : Z;
  satellites_used : Z;
  satellites_visible : Z;
  skyview : list satellite_t.t
}.

(** ** Lines 171-184: the sum and the average *)

(** The body of [for(i = 0; i <= used; i++)], run [n] more times from
    index [i].  Reading [skyview[i]] past the end of the array is undefined
    in C: [None]. *)
Fixpoint snr_loop (n : nat) (i : Z) (gpsdata : gps_data_t) (snr_total : double)
  : option double :=
  match n with
  | O => Some snr_total
  | S n' =>
      match nth_error (skyview gpsdata) (Z.to_nat i) with
      | None => None
      | Some sat =>
          snr_loop n' (i + 1) gpsdata
            (if (0 <? Z.b2z (satellite_t.used sat))
                && Double.ltb (Double.of_int 1) (satellite_t.ss sat)
             then Double.add snr_total (satellite_t.ss sat)
             else snr_total)
      end
  end.

(** [snr_total] after the loop: [i] runs over [0 .. used], that is
    [used + 1] turns (none when [used] is negative). *)
Definition snr_sum (gpsdata : gps_data_t) : option double :=
  snr_loop (Z.to_nat (satellites_used gpsdata + 1)) 0 gpsdata (Double.of_int 0).

(** [if (0 < used) snr_avg = snr_total / used;] over [snr_avg = 0.0]. *)
Definition average (snr_total : double) (used : Z) : double :=
  if 0 <? used then Double.div snr_total (Double.of_int used) else Double.zero.

(** main's locals [used], [visible] and [snr_avg] once they are all set. *)
Record locals : Type := { used : Z; visible : Z; snr_avg : double }.

Definition aggregate (gpsdata : gps_data_t) : option locals :=
  match snr_sum gpsdata with
  | None => None
  | Some snr_total =>
      Some {| used := satellites_used gpsdata;
              visible := satellites_visible gpsdata;
              snr_avg := average snr_total (satellites_used gpsdata) |}
  end.

(** ** printf conversions

    [printf] is the C library's.  The three conversions the client uses are
    written out after ISO C 7.21.6.1, with glibc's choices where the
    standard leaves one ([inf] and [nan] in lower case, the decimal expansion
    rounded to nearest, ties to even). *)

Definition nl : string := String (ascii_of_nat 10) EmptyString.

(** [%d]: an optional minus sign and the decimal digits. *)
Definition printf_d (n : Z) : string := NilZero.string_of_int (Z.to_int n).

(** The last [k] decimal digits of [z], most significant first. *)
Fixpoint digits (k : nat) (z : Z) : string :=
  match k with
  | O => EmptyString
  | S k' =>
      (digits k' (z / 10)
       ++ String (ascii_of_nat (48 + Z.to_nat (z mod 10))) EmptyString)%string
  end.

(** [m * 2^e * 10^6] rounded to the nearest integer, ties to even. *)
Definition scaled6 (m : positive) (e : Z) : Z :=
  let n := Zpos m * 10 ^ 6 in
  if 0 <=? e then n * 2 ^ e
  else
    let d := 2 ^ (- e) in
    let q := n / d in
    match 2 * (n mod d) ?= d with
    | Lt => q
    | Gt => q + 1
    | Eq => if Z.even q then q else q + 1
    end.

Definition sign (s : bool) : string := if s then "-"%string else EmptyString.

(** [%lf] is [%f]: fixed notation, precision 6 when none is given.  An
    infinity is written [inf] with its sign; [spec_float] keeps no sign for a
    NaN, which is written [nan]. *)
Definition printf_lf (x : double) : string :=
  match x with
  | S754_nan => "nan"%string
  | S754_infinity s => (sign s ++ "inf")%string
  | S754_zero s => (sign s ++ "0.000000")%string
  | S754_finite s m e =>
      let n := scaled6 m e in
      (sign s ++ NilZero.string_of_uint (N.to_uint (Z.to_N (n / 10 ^ 6)))
       ++ "." ++ digits 6 (n mod 10 ^ 6))%string
  end.

(** Shapes of a rendered number: [-]digits, and [-]digits.digits with
    exactly [k] digits after the point. *)
Definition is_digit (c : ascii) : bool :=
  ((48 <=? nat_of_ascii c) && (nat_of_ascii c <=? 57))%nat.







(** ** Programs: a trace of calls and output, and how the run ends *)

Inductive event : Type :=
| gps_open (status : Z)
| gps_stream
| clock_gettime (ts : timespec)
| gps_waiting (ready : bool)
| gps_read (status : Z)
| gps_close
| stdout (text : string)
| stderr (text : string).

Inductive res (A : Type) : Type :=
| Val (a : A)          (* control goes on with [a] *)
| Exit (code : Z)      (* [exit(code)] was called *)
| Undefined            (* the C program has no defined behaviour *)
| Polling.             (* out of fuel: the while loop is still turning *)

Arguments Val {A} a.
Arguments Exit {A} code.
Arguments Undefined {A}.
Arguments Polling {A}.

Definition io (A : Type) : Type := (list event * res A)%type.

Definition ret {A : Type} (a : A) : io A := ([], Val a).

Definition bind {A B : Type} (c : io A) (k : A -> io B) : io B :=
  match snd c with
  | Val a => (fst c ++ fst (k a), snd (k a))
  | Exit code => (fst c, Exit code)
  | Undefined => (fst c, Undefined)
  | Polling => (fst c, Polling)
  end.

Definition emit (e : event) : io unit := ([e], Val tt).
Definition exit {A : Type} (code : Z) : io A := ([], Exit code).

(** A step whose failure is undefined behaviour. *)
Definition defined {A : Type} (o : option A) : io A :=
  match o with
  | Some a => ret a
  | None => ([], Undefined)
  end.

Declare Scope io_scope.
Delimit Scope io_scope with io.
Notation "x <- c ;; k" := (bind c (fun x => k))
  (at level 61, c at next level, right associativity) : io_scope.
Notation "c ;; k" := (bind c (fun _ => k))
  (at level 61, right associativity) : io_scope.

Definition trace {A : Type} (c : io A) : list event := fst c.
Definition result {A : Type} (c : io A) : res A := snd c.

(** What the run wrote on stdout, one entry per [printf]. *)
Fixpoint on_stdout (t : list event) : list string :=
  match t with
  | [] => []
  | stdout text :: t' => text :: on_stdout t'
  | _ :: t' => on_stdout t'
  end.

(** ** Lines 27-54: the OIDs, the translation table, [usage] *)

Definition OID_VISIBLE : string := ".1.3.6.1.2.1.25.1.31".
Definition OID_USED : string := ".1.3.6.1.2.1.25.1.32".
Definition OID_SNR_AVG : string := ".1.3.6.1.2.1.25.1.33".

(** The table's pointers are addresses of main's locals. *)
Inductive int_ptr : Type := addr_visible | addr_used.
Inductive dbl_ptr : Type := addr_snr_avg.

Definition deref_int (p : int_ptr) (l : locals) : Z :=
  match p with
  | addr_visible => visible l
  | addr_used => used l
  end.

Definition deref_dbl (p : dbl_ptr) (l : locals) : double :=
  match p with
  | addr_snr_avg => snr_avg l
  end.

(** A [NULL] pointer is [None]. *)
Module oid_mib_xlate.
Record t : Type := {
  oid : option string;
  short_mibr : option string;
  long_mib : option string;
  int_val : option int_ptr;
  dbl_val : option dbl_ptr
}.
End oid_mib_xlate.

Definition xlate : list oid_mib_xlate.t :=
  [ oid_mib_xlate.Build_t (Some OID_VISIBLE) None None (Some addr_visible) None;
    oid_mib_xlate.Build_t (Some OID_USED) None None (Some addr_used) None;
    oid_mib_xlate.Build_t (Some OID_SNR_AVG) None None None (Some addr_snr_avg);
    oid_mib_xlate.Build_t None None None None None ].

Definition usage_text (prog_name : string) : string :=
  ("Usage:" ++ nl
   ++ prog_name ++ " [-h] [-g OID] [server[:port[:device]]]" ++ nl ++ nl
   ++ "Examples:" ++ nl
   ++ "to get OID_VISIBLE" ++ nl
   ++ "   $ gpssnmp -g .1.3.6.1.2.1.25.1.31" ++ nl
   ++ "   .1.3.6.1.2.1.25.1.31 = gauge: 13" ++ nl ++ nl
   ++ "to get OID_USED" ++ nl
   ++ "   $ gpssnmp -g .1.3.6.1.2.1.25.1.32" ++ nl
   ++ "   .1.3.6.1.2.1.25.1.32 = gauge: 4" ++ nl ++ nl
   ++ "to get OID_SNR_AVG" ++ nl
   ++ "   $ gpssnmp -g .1.3.6.1.2.1.25.1.33" ++ nl
   ++ "   .1.3.6.1.2.1.25.1.33 = gauge: 22.250000" ++ nl ++ nl)%string.

Definition usage (prog_name : string) : io unit :=
  emit (stdout (usage_text prog_name)).

(** ** Lines 185-206: print the requested gauge *)

(** The body of the [if (0 == strcmp(pxlate->oid, oid))], up to its
    [break]; [name] is [pxlate->oid]. *)
Definition print_gauge (argv0 oid name : string) (e : oid_mib_xlate.t)
  (l : locals) : io unit :=
  match oid_mib_xlate.int_val e with
  | Some p =>
      emit (stdout (name ++ " = gauge: " ++ printf_d (deref_int p l) ++ nl))
  | None =>
      match oid_mib_xlate.dbl_val e with
      | Some p =>
          emit (stdout (name ++ " = gauge: " ++ printf_lf (deref_dbl p l) ++ nl))
      | None =>
          emit (stderr (argv0 ++ ": ERROR: internal error, OID " ++ oid
                        ++ nl ++ nl))
      end
  end.

(** The scan from [pxlate] on, then the test for the sentinel and the
    final [exit].  Walking off a table without sentinel is undefined. *)
Fixpoint resolve (pxlate : list oid_mib_xlate.t) (argv0 oid : string)
  (l : locals) : io unit :=
  match pxlate with
  | [] => ([], Undefined)
  | e :: rest =>
      match oid_mib_xlate.oid e with
      | None =>
          (emit (stderr (argv0 ++ ": ERROR: Unknown OID " ++ oid ++ nl ++ nl));;
           usage argv0;;
           exit 1)%io
      | Some name =>
          if (name =? oid)%string
          then (print_gauge argv0 oid name e l;; exit 0)%io
          else resolve rest argv0 oid l
      end
  end.

(** ** The environment: what libgps and the clock answer *)

(** One turn of the while loop: the answer of [gps_waiting], the status of
    [gps_read] and the session structure it leaves, the clock after it. *)
Record poll_t : Type := {
  ready : bool;
  status : Z;
  data : gps_data_t;
  ts_now : timespec
}.

Record world : Type := {
  open_status : Z;
  opened : gps_data_t;
  ts_start : timespec;
  polls : nat -> poll_t
}.

(** [10 < llabs(ts_now.tv_sec - ts_start.tv_sec)] *)
Definition timed_out (start now : timespec) : bool :=
  10 <? Z.abs (tv_sec now - tv_sec start).

(** ** Lines 171-206: from the end of the while loop to the final [exit] *)
Definition report (argv0 oid : string) (gpsdata : gps_data_t) : io unit :=
  (snr_total <- defined (snr_sum gpsdata);;
   emit gps_close;;
   resolve xlate argv0 oid
     {| used := satellites_used gpsdata;
        visible := satellites_visible gpsdata;
        snr_avg := average snr_total (satellites_used gpsdata) |})%io.

Section Main.

(** The mask of [gps.h] for a sky view in [gpsdata.set]. *)
Variable SATELLITE_SET : Z.

(** ** Lines 149-170: the while loop, from its turn [k] on *)
Fixpoint poll_loop (fuel : nat) (w : world) (k : nat) (gpsdata : gps_data_t)
  : io gps_data_t :=
  match fuel with
  | O => ([], Polling)
  | S fuel' =>
      let p := polls w k in
      (emit (gps_waiting (ready p));;
       if ready p then
         emit (gps_read (status p));;
         if status p =? -1 then
           emit (stderr ("gpssnmp: ERROR: read failed "
                         ++ printf_d (status p) ++ nl));;
           exit 1
         else
           let gpsdata := data p in
           if negb (Z.land SATELLITE_SET (set gpsdata) =? 0) then
             ret gpsdata
           else
             emit (clock_gettime (ts_now p));;
             if timed_out (ts_start w) (ts_now p) then
               emit (stderr ("gpssnmp: ERROR: timeout" ++ nl));;
               exit 1
             else
               poll_loop fuel' w (S k) gpsdata
       else
         ret gpsdata)%io
  end.

(** ** Lines 124-206: [main] once the options are read

    [oid] is the buffer filled by [-g], [argv0] the program's name. *)
Definition main (fuel : nat) (argv0 oid : string) (w : world) : io unit :=
  ((if (oid =? "")%string then
      emit (stderr (argv0 ++ ": ERROR: Missing option" ++ nl ++ nl));;
      usage argv0;;
      exit 1
    else ret tt);;
   emit (gps_open (open_status w));;
   (if negb (open_status w =? 0) then
      emit (stderr ("gpssnmp: ERROR: connection failed: "
                    ++ printf_d (open_status w) ++ nl));;
      exit 1
    else ret tt);;
   emit gps_stream;;
   emit (clock_gettime (ts_start w));;
   gpsdata <- poll_loop fuel w 0 (opened w);;
   report argv0 oid gpsdata)%io.

(** *** Vocabulary for statements about the loop *)

(** Turn [k] goes round the loop: data was ready, the read succeeded, it
    brought no sky view and the deadline had not passed. *)
Definition goes_round (w : world) (k : nat) : bool :=
  let p := polls w k in
  ready p
  && negb (status p =? -1)
  && (Z.land SATELLITE_SET (set (data p)) =? 0)
  && negb (timed_out (ts_start w) (ts_now p)).

End Main.

(** The calls of [k] turns that go round, from turn [j] on. *)
Fixpoint rounds (w : world) (j k : nat) : list event :=
  match k with
  | O => []
  | S k' =>
      [gps_waiting true; gps_read (status (polls w j));
       clock_gettime (ts_now (polls w j))] ++ rounds w (S j) k'
  end.

(** The session structure after [k] turns that went round from turn [j],
    entered with [gpsdata]: untouched, or as the last read left it. *)
Definition session_from (w : world) (gpsdata : gps_data_t) (j k : nat)
  : gps_data_t :=
  match k with
  | O => gpsdata
  | S k' => data (polls w (j + k'))
  end.

(** The session structure on entry to turn [k] of a run. *)
Definition session (w : world) (k : nat) : gps_data_t :=
  session_from w (opened w) 0 k.

(** The calls before the loop of a run that got a session. *)
Definition prologue (w : world) : list event :=
  [gps_open 0; gps_stream; clock_gettime (ts_start w)].

(** The two messages of the early exits inside the loop. *)
Definition read_failed_msg : string :=
  ("gpssnmp: ERROR: read failed -1" ++ nl)%string.
Definition timeout_msg : string := ("gpssnmp: ERROR: timeout" ++ nl)%string.

(** The reading, [elapsed] seconds after [start] was taken, of a clock that
    was set back by [back] seconds in between. *)
Definition set_back (start : timespec) (elapsed back : Z) : timespec :=
  {| tv_sec := tv_sec start + elapsed - back; tv_nsec := tv_nsec start |}.

(** ** The specification's reading, to compare with the code *)

(** A record counts when its used flag is set and its signal-to-noise
    ratio exceeds 1.0. *)
Definition qualifies (sat : satellite_t.t) : bool :=
  satellite_t.used sat && Double.ltb (Double.of_int 1) (satellite_t.ss sat).

(** The sum of signalToNoise over the qualifying records, in order. *)
Definition spec_snr_sum (records : list satellite_t.t) : double :=
  fold_left (fun acc sat => Double.add acc (satellite_t.ss sat))
    (filter qualifies records) (Double.of_int 0).

(** The records of the report: the first satellitesVisible entries. *)
Definition report_records (gpsdata : gps_data_t) : list satellite_t.t :=
  firstn (Z.to_nat (satellites_visible gpsdata)) (skyview gpsdata).

(** averageSnr as the specification words it: the sum over all the
    report's qualifying records, divided by satellitesUsed when that is
    positive, else 0.0. *)
Definition spec_averageSnr (gpsdata : gps_data_t) : double :=
  if 0 <? satellites_used gpsdata
  then Double.div (spec_snr_sum (report_records gpsdata))
         (Double.of_int (satellites_used gpsdata))
  else Double.zero.

(** ** The loop of lines 173-180 as a fold over the array *)

(** One turn of the loop body on the running total. *)
Definition loop_body (snr_total : double) (sat : satellite_t.t) : double :=
  if qualifies sat then Double.add snr_total (satellite_t.ss sat)
  else snr_total.

(** [n] turns of the loop over the records that remain. *)
Fixpoint sum_prefix (n : nat) (l : list satellite_t.t) (acc : double)
  : option double :=
  match n, l with
  | O, _ => Some acc
  | S _, [] => None
  | S n', s :: l' => sum_prefix n' l' (loop_body acc s)
  end.

(** ** The identifier table as a mapping

    The text after [gauge: ] for a recognised identifier. *)
Definition gauge_value (oid : string) (l : locals) : option string :=
  if (oid =? OID_VISIBLE)%string then Some (printf_d (visible l))
  else if (oid =? OID_USED)%string then Some (printf_d (used l))
  else if (oid =? OID_SNR_AVG)%string then Some (printf_lf (snr_avg l))
  else None.

(** ** Sample inputs *)

(** The masks [SATELLITE_SET] and [TIME_SET] with the values of gpsd's
    [gps.h], [(1llu<<15)] and [(1llu<<2)].  The theorems hold for any value
    of the mask; only the sample runs use these. *)
Definition SATELLITE_SET_gps_h : Z := Z.shiftl 1 15.
Definition TIME_SET_gps_h : Z := Z.shiftl 1 2.

Definition at_sec (s : Z) : timespec := {| tv_sec := s; tv_nsec := 0 |}.

Definition sat (u : bool) (snr : Z) : satellite_t.t :=
  {| satellite_t.used := u; satellite_t.ss := Double.of_int snr |}.

(** A session structure that has seen a time report only. *)
Definition no_sky : gps_data_t :=
  {| set := TIME_SET_gps_h; satellites_used := 0; satellites_visible := 0;
     skyview := [sat false 0; sat false 0; sat false 0; sat false 0] |}.

(** Five satellites in view, four of them used (scenario 1 of the
    specification). *)
Definition sky_5_4 : gps_data_t :=
  {| set := SATELLITE_SET_gps_h; satellites_used := 4; satellites_visible := 5;
     skyview := [sat true 20; sat true 25; sat true 15; sat true 40;
                 sat false 33; sat false 0] |}.

(** Three satellites in view, the only used one reported last. *)
Definition sky_used_last : gps_data_t :=
  {| set := SATELLITE_SET_gps_h; satellites_used := 1; satellites_visible := 3;
     skyview := [sat false 0; sat false 0; sat true 30; sat false 0] |}.

Definition DBL_MAX : double := SFmax_float Double.prec Double.emax.

(** Three satellites in view, two used, both with the largest finite
    signal strength a [double] holds. *)
Definition sky_huge : gps_data_t :=
  {| set := SATELLITE_SET_gps_h; satellites_used := 2; satellites_visible := 3;
     skyview := [satellite_t.Build_t true DBL_MAX;
                 satellite_t.Build_t true DBL_MAX;
                 sat false 0; sat false 0] |}.

(** gpsd answers at once, every read works and brings [gpsdata]; the clock
    advances three seconds a turn. *)
Definition steady (gpsdata : gps_data_t) : world :=
  {| open_status := 0; opened := no_sky; ts_start := at_sec 100;
     polls := fun k =>
       {| ready := true; status := 0; data := gpsdata;
          ts_now := at_sec (100 + 3 * Z.of_nat k) |} |}.

(** As [steady no_sky], but the read of turn 2 fails. *)
Definition read_fails : world :=
  {| open_status := 0; opened := no_sky; ts_start := at_sec 100;
     polls := fun k =>
       {| ready := true;
          status := if (k =? 2)%nat then -1 else 0;
          data := no_sky;
          ts_now := at_sec (100 + 3 * Z.of_nat k) |} |}.

(** As [sky_used_last], with other records after position 1 and another
    count of satellites in view. *)
Definition sky_used_last' : gps_data_t :=
  {| set := SATELLITE_SET_gps_h; satellites_used := 1; satellites_visible := 2;
     skyview := [sat false 0; sat false 0; sat true 44; sat true 45] |}.

(** As [steady no_sky], but nothing is ready at turn 2. *)
Definition goes_quiet : world :=
  {| open_status := 0; opened := no_sky; ts_start := at_sec 100;
     polls := fun k =>
       {| ready := negb (k =? 2)%nat; status := 0; data := no_sky;
          ts_now := at_sec (100 + 3 * Z.of_nat k) |} |}.

(** ** Lines 75-122: the options

    [getopt] (or [getopt_long]) is the C library's: what it returns, call
    after call until it returns -1, is an input. *)

(** One answer of [getopt]: the option character, [optarg], and the
    diagnostic that [getopt] itself wrote on stderr during the call, if
    any (it writes one when it answers [?] for an option it does not know
    or for a missing argument: the program leaves [opterr] set and its
    option string does not start with a colon). *)
Record getopt_t : Type := {
  ch : ascii;
  optarg : string;
  diagnostic : option string
}.

(** [strlcpy(oid, optarg, sizeof(oid))] into [char oid[30]]: the first 29
    characters at most, then the terminating NUL. *)
Definition strlcpy_oid (src : string) : string := substring 0 29 src.

(** [atoi], after ISO C 7.22.1.2: white space, an optional sign, then
    decimal digits up to the first other character.  The result is an
    [int]; when the value cannot be represented the behaviour is
    undefined: [None]. *)
Definition isspace (c : ascii) : bool :=
  ((nat_of_ascii c =? 32)
   || ((9 <=? nat_of_ascii c) && (nat_of_ascii c <=? 13)))%nat.

Fixpoint skip_space (s : string) : string :=
  match s with
  | String c s' => if isspace c then skip_space s' else s
  | EmptyString => s
  end.

Fixpoint atoi_digits (s : string) (acc : Z) : Z :=
  match s with
  | String c s' =>
      if is_digit c
      then atoi_digits s' (10 * acc + Z.of_nat (nat_of_ascii c - 48))
      else acc
  | EmptyString => acc
  end.

Definition INT_MIN : Z := - 2 ^ 31.
Definition INT_MAX : Z := 2 ^ 31 - 1.

Definition to_int (value : Z) : option Z :=
  if (INT_MIN <=? value) && (value <=? INT_MAX) then Some value else None.

Definition atoi (s : string) : option Z :=
  match skip_space s with
  | String c s' =>
      if (c =? "-")%char then to_int (- atoi_digits s' 0)
      else if (c =? "+")%char then to_int (atoi_digits s' 0)
      else to_int (atoi_digits (String c s') 0)
  | EmptyString => Some 0
  end.

(** What happens before the session: the calls of [gps_enable_debug], next
    to the events of the rest of the program. *)
Inductive startup_event : Type :=
| gps_enable_debug (debug : Z)
| core (e : event).

(** What [getopt] wrote on stderr while it gave the answer [o]. *)
Definition getopt_wrote (o : getopt_t) : list startup_event :=
  match diagnostic o with
  | Some text => [core (stderr text)]
  | None => []
  end.

Section Options.

(** [VERSION] and [REVISION] of [gpsd_config.h]. *)
Variables VERSION REVISION : string.

(** The [while (1)] of lines 87-122 over the answers of [getopt] that are
    left; [oid] is the buffer so far.  The loop ends with the buffer when
    [getopt] returns -1. *)
Fixpoint options (argv0 : string) (opts : list getopt_t) (oid : string)
  : list startup_event * res string :=
  match opts with
  | [] => ([], Val oid)
  | o :: rest =>
      let switch : list startup_event * res string :=
        if (ch o =? "?")%char || (ch o =? "h")%char then
          ([core (stdout (usage_text argv0))], Exit 0)
        else if (ch o =? "g")%char then
          options argv0 rest (strlcpy_oid (optarg o))
        else if (ch o =? "D")%char then
          match atoi (optarg o) with
          | Some debug =>
              (gps_enable_debug debug :: fst (options argv0 rest oid),
               snd (options argv0 rest oid))
          | None => ([], Undefined)
          end
        else if (ch o =? "V")%char then
          ([core (stderr (argv0 ++ ": " ++ VERSION ++ " (revision "
                          ++ REVISION ++ ")" ++ nl))], Exit 0)
        else
          ([core (stdout (usage_text argv0))], Exit 0)
      in
      (getopt_wrote o ++ fst switch, snd switch)
  end.

(** The mask of [gps.h] for a sky view, as in [main]. *)
Variable SATELLITE_SET : Z.

(** ** Lines 56-206: the whole program, options first *)
Definition gpssnmp (fuel : nat) (argv0 : string) (opts : list getopt_t)
  (w : world) : list startup_event * res unit :=
  let startup := options argv0 opts EmptyString in
  match snd startup with
  | Val oid =>
      (fst startup ++ map core (trace (main SATELLITE_SET fuel argv0 oid w)),
       result (main SATELLITE_SET fuel argv0 oid w))
  | Exit code => (fst startup, Exit code)
  | Undefined => (fst startup, Undefined)
  | Polling => (fst startup, Polling)
  end.

End Options.

(** *** Vocabulary for statements about the options *)

(** [-D] with an argument that [atoi] turns into an [int], answered
    without a diagnostic. *)
Definition sets_debug (o : getopt_t) : bool :=
  (ch o =? "D")%char
  && match atoi (optarg o), diagnostic o with
     | Some _, None => true
     | _, _ => false
     end.

(** [-g], answered without a diagnostic. *)
Definition sets_oid (o : getopt_t) : bool :=
  (ch o =? "g")%char
  && match diagnostic o with None => true | Some _ => false end.

(** The options that let the loop go on. *)
Definition goes_on (o : getopt_t) : bool := sets_oid o || sets_debug o.

(** The buffer after a run of [-g] and [-D] options: cut from the last
    [-g]. *)
Definition requested (opts : list getopt_t) (oid : string) : string :=
  fold_left
    (fun oid o => if (ch o =? "g")%char then strlcpy_oid (optarg o) else oid)
    opts oid.

(** The calls of [gps_enable_debug] of a run of [-g] and [-D] options. *)
Definition debug_calls (opts : list getopt_t) : list startup_event :=
  flat_map
    (fun o =>
       if (ch o =? "D")%char
       then match atoi (optarg o) with
            | Some debug => [gps_enable_debug debug]
            | None => []
            end
       else [])
    opts.

(** An answer of [getopt] without diagnostic. *)
Definition opt (c : ascii) (arg : string) : getopt_t :=
  {| ch := c; optarg := arg; diagnostic := None |}.

(** ** Clock readings to the nanosecond *)

(** A [struct timespec] as [clock_gettime] fills it. *)
Definition well_formed (ts : timespec) : Prop := 0 <= tv_nsec ts < 10 ^ 9.

(** The time from [start] to [now], in nanoseconds. *)
Definition elapsed_ns (start now : timespec) : Z :=
  (tv_sec now - tv_sec start) * 10 ^ 9 + (tv_nsec now - tv_nsec start).

(** ** What a run wrote on stderr, one entry per [fprintf] *)
Fixpoint on_stderr (t : list event) : list string :=
  match t with
  | [] => []
  | stderr text :: t' => text :: on_stderr t'
  | _ :: t' => on_stderr t'
  end.

(** ** The order of the libgps calls

    Where a session stands, and which call may come next; output and clock
    readings leave it where it is. *)
Inductive session_state : Type :=
| not_open      (* before [gps_open] *)
| refused       (* [gps_open] failed *)
| open          (* [gps_open] returned 0 *)
| streaming     (* [gps_stream] called, nothing polled yet *)
| ready_to_read (* [gps_waiting] returned true *)
| read_done     (* [gps_read] returned *)
| nothing_ready (* [gps_waiting] returned false *)
| closed.       (* [gps_close] called *)

Definition next (s : session_state) (e : event) : option session_state :=
  match e, s with
  | stdout _, _ | stderr _, _ | clock_gettime _, _ => Some s
  | gps_open status, not_open => Some (if status =? 0 then open else refused)
  | gps_stream, open => Some streaming
  | gps_waiting b, (streaming | read_done) =>
      Some (if b then ready_to_read else nothing_ready)
  | gps_read _, ready_to_read => Some read_done
  | gps_close, (read_done | nothing_ready) => Some closed
  | _, _ => None
  end.

Fixpoint follow (s : session_state) (t : list event) : option session_state :=
  match t with
  | [] => Some s
  | e :: t' =>
      match next s e with
      | Some s' => follow s' t'
      | None => None
      end
  end.

(** ** More sample inputs *)

(** gpsd is always ready and never sends a sky view; the clock stands
    still. *)
Definition frozen_clock : world :=
  {| open_status := 0; opened := no_sky; ts_start := at_sec 100;
     polls := fun _ =>
       {| ready := true; status := 0; data := no_sky;
          ts_now := at_sec 100 |} |}.

(** The sky view comes at turn 5, when the clock is 30 seconds past the
    start. *)
Definition late_sky : world :=
  {| open_status := 0; opened := no_sky; ts_start := at_sec 100;
     polls := fun k =>
       {| ready := true; status := 0;
          data := if (k <? 5)%nat then no_sky else sky_5_4;
          ts_now := if (k <? 5)%nat then at_sec (100 + 2 * Z.of_nat k)
                    else at_sec 130 |} |}.

(** gpsd is always ready and never sends a sky view; the start is taken at
    100.000000000 s and every later reading is 110.999999999 s. *)
Definition almost_eleven : world :=
  {| open_status := 0; opened := no_sky;
     ts_start := {| tv_sec := 100; tv_nsec := 0 |};
     polls := fun _ =>
       {| ready := true; status := 0; data := no_sky;
          ts_now := {| tv_sec := 110; tv_nsec := 999999999 |} |} |}.

(** As [almost_eleven], but the reading of turn 3 and of the later turns is
    111.000000000 s. *)
Definition eleven_at_3 : world :=
  {| open_status := 0; opened := no_sky;
     ts_start := {| tv_sec := 100; tv_nsec := 0 |};
     polls := fun k =>
       {| ready := true; status := 0; data := no_sky;
          ts_now := if (k <? 3)%nat
                    then {| tv_sec := 110; tv_nsec := 999999999 |}
                    else {| tv_sec := 111; tv_nsec := 0 |} |} |}.

(** All the entries of the array hold a used satellite. *)
Definition sky_full : gps_data_t :=
  {| set := SATELLITE_SET_gps_h; satellites_used := 3; satellites_visible := 3;
     skyview := [sat true 20; sat true 25; sat true 15] |}.

(** * Signs of the [double] operations the client uses *)

Module FloatFacts.

Lemma shr_1_nonneg (mrs : shr_record) :
  0 <= shr_m mrs -> 0 <= shr_m (shr_1 mrs).
Proof.
  destruct mrs as [m r s]. cbn [shr_m shr_1].
  destruct m as [|[p|p|]|[p|p|]]; cbn [shr_m]; lia.
Qed.

Lemma iter_pos_shr_1_nonneg (n : positive) :
  forall mrs, 0 <= shr_m mrs -> 0 <= shr_m (iter_pos shr_1 n mrs).
Proof.
  induction n as [n IH|n IH|]; intros mrs H; cbn [iter_pos].
  - apply IH, IH, shr_1_nonneg, H.
  - apply IH, IH, H.
  - apply shr_1_nonneg, H.
Qed.

Lemma shr_fexp_nonneg (m e : Z) (l : location) :
  0 <= m ->
  0 <= shr_m (fst (shr_fexp Double.prec Double.emax m e l)).
Proof.
  intros Hm. unfold shr_fexp, shr.
  assert (H0 : 0 <= shr_m (shr_record_of_loc m l))
    by (destruct l as [|[| |]]; exact Hm).
  destruct (fexp Double.prec Double.emax (Zdigits2 m + e) - e);
    cbn [fst]; auto using iter_pos_shr_1_nonneg.
Qed.

Lemma round_nearest_even_nonneg (m : Z) (l : location) :
  0 <= m -> 0 <= round_nearest_even m l.
Proof.
  intros Hm. destruct l as [|[| |]]; cbn [round_nearest_even]; try lia.
  destruct (Z.even m); lia.
Qed.

Lemma binary_round_aux_nonneg (mx ex : Z) (lx : location) :
  0 <= mx ->
  Double.nonneg (binary_round_aux Double.prec Double.emax false mx ex lx) = true.
Proof.
  intros Hm. unfold binary_round_aux.
  pose proof (shr_fexp_nonneg mx ex lx Hm) as H1.
  destruct (shr_fexp Double.prec Double.emax mx ex lx) as [mrs' e'].
  cbn [fst] in H1.
  pose proof (shr_fexp_nonneg _ e' loc_Exact
                (round_nearest_even_nonneg _ (loc_of_shr_record mrs') H1)) as H2.
  destruct (shr_fexp Double.prec Double.emax
              (round_nearest_even (shr_m mrs') (loc_of_shr_record mrs'))
              e' loc_Exact) as [mrs'' e''].
  cbn [fst] in H2.
  destruct (shr_m mrs'') as [|m|m]; [reflexivity| |lia].
  destruct (e'' <=? Double.emax - Double.prec); reflexivity.
Qed.

Lemma binary_round_nonneg (m : positive) (e : Z) :
  Double.nonneg (binary_round Double.prec Double.emax false m e) = true.
Proof.
  unfold binary_round.
  destruct (shl_align m e _) as [mz ez].
  apply binary_round_aux_nonneg. lia.
Qed.

Lemma add_nonneg (x y : double) :
  Double.nonneg x = true -> Double.nonneg y = true -> Double.nonneg (Double.add x y) = true.
Proof.
  destruct x as [[|]|[|]| |[|] mx ex]; try discriminate;
    destruct y as [[|]|[|]| |[|] my ey]; try discriminate;
    intros _ _; try reflexivity.
  unfold Double.add, SFadd. cbn [cond_Zopp Z.add binary_normalize].
  apply binary_round_nonneg.
Qed.

Lemma ltb_one_nonneg (y : double) :
  Double.ltb (Double.of_int 1) y = true -> Double.nonneg y = true.
Proof.
  destruct y as [[|]|[|]| |[|] my ey]; try reflexivity; try discriminate.
Qed.

Lemma div_nonneg (x : double) (my : positive) (ey : Z) :
  Double.nonneg x = true ->
  Double.nonneg (Double.div x (S754_finite false my ey)) = true.
Proof.
  destruct x as [[|]|[|]| |[|] mx ex]; try discriminate; intros _;
    try reflexivity.
  unfold Double.div, SFdiv, SFdiv_core_binary.
  set (m' := match _ - _ - _ with Z.pos _ => _ | Z0 => _ | Z.neg _ => _ end).
  assert (Hm' : 0 <= m').
  { subst m'. destruct (_ - _ - _); try lia. apply Z.shiftl_nonneg. lia. }
  pose proof (Z.div_pos m' (Z.pos my) Hm' ltac:(lia)) as Hq.
  unfold Z.div in Hq.
  destruct (Z.div_eucl m' (Z.pos my)) as [q r]. cbn [fst] in Hq.
  apply binary_round_aux_nonneg, Hq.
Qed.


Lemma digits2_pos_iter_xO (p k : positive) :
  digits2_pos (Pos.iter xO p k) = (digits2_pos p + k)%positive.
Proof.
  induction k as [|k IH] using Pos.peano_ind.
  - cbn [Pos.iter digits2_pos]. rewrite Pos.add_1_r. reflexivity.
  - rewrite Pos.iter_succ. cbn [digits2_pos].
    rewrite IH, Pos.add_succ_r. reflexivity.
Qed.

Lemma digits2_pos_lower (p : positive) :
  2 ^ (Z.pos (digits2_pos p) - 1) <= Z.pos p.
Proof.
  induction p as [p IH|p IH|]; cbn [digits2_pos]; [| |cbn; lia];
    rewrite Pos2Z.inj_succ;
    replace (Z.succ (Z.pos (digits2_pos p)) - 1)
      with (Z.succ (Z.pos (digits2_pos p) - 1)) by lia;
    rewrite Z.pow_succ_r by lia; lia.
Qed.

Lemma shr_fexp_exact (mz : positive) (e : Z) :
  Z.pos (digits2_pos mz) = Double.prec ->
  -1074 <= e ->
  shr_fexp Double.prec Double.emax (Z.pos mz) e loc_Exact
  = ({| shr_m := Z.pos mz; shr_r := false; shr_s := false |}, e).
Proof.
  intros Hd He. unfold shr_fexp, Zdigits2. rewrite Hd.
  unfold fexp, emin, Double.prec, Double.emax.
  rewrite Z.max_l by lia.
  replace (53 + e - 53 - e) with 0 by lia. reflexivity.
Qed.

Lemma binary_round_aux_exact (mz : positive) (e : Z) :
  Z.pos (digits2_pos mz) = Double.prec ->
  -1074 <= e <= 971 ->
  binary_round_aux Double.prec Double.emax false (Z.pos mz) e loc_Exact
  = S754_finite false mz e.
Proof.
  intros Hd He. unfold binary_round_aux.
  rewrite shr_fexp_exact by (assumption || lia).
  cbn [shr_m loc_of_shr_record round_nearest_even].
  rewrite shr_fexp_exact by (assumption || lia).
  cbn [shr_m].
  replace (e <=? Double.emax - Double.prec) with true; [reflexivity|].
  symmetry; apply Z.leb_le. unfold Double.emax, Double.prec. lia.
Qed.

(** A positive C [int] converts to a finite positive [double]. *)
Lemma of_int_finite (z : Z) :
  0 < z < 2 ^ 31 ->
  exists m e, Double.of_int z = S754_finite false m e.
Proof.
  intros Hz. destruct z as [|p|p]; try lia.
  unfold Double.of_int, binary_normalize, binary_round.
  pose proof (digits2_pos_lower p) as Hlow.
  assert (Hd : Z.pos (digits2_pos p) <= 31).
  { destruct (Z_le_gt_dec (Z.pos (digits2_pos p)) 31) as [|Hgt]; [assumption|].
    assert (2 ^ 31 <= 2 ^ (Z.pos (digits2_pos p) - 1))
      by (apply Z.pow_le_mono_r; lia).
    lia. }
  assert (Hfexp : fexp Double.prec Double.emax (Z.pos (digits2_pos p) + 0)
                  = Z.pos (digits2_pos p) - 53).
  { unfold fexp, emin, Double.prec, Double.emax. lia. }
  rewrite Hfexp. unfold shl_align.
  destruct (Z.pos (digits2_pos p) - 53 - 0) as [|k|k] eqn:Hk; try lia.
  exists (Pos.iter xO p k), (Z.pos (digits2_pos p) - 53).
  apply binary_round_aux_exact.
  - rewrite digits2_pos_iter_xO, Pos2Z.inj_add. unfold Double.prec. lia.
  - lia.
Qed.

End FloatFacts.

(** * The sum and the average (lines 171-184) *)

Module Aggregator.

Lemma nth_error_skipn {A : Type} (l : list A) (i : nat) :
  nth_error l i = hd_error (skipn i l).
Proof.
  revert l; induction i as [|i IH]; intros [|x l]; simpl; auto.
Qed.

Lemma skipn_succ {A : Type} (l : list A) (i : nat) :
  skipn (S i) l = tl (skipn i l).
Proof.
  revert l; induction i as [|i IH]; intros [|x l]; auto.
  change (skipn (S (S i)) (x :: l)) with (skipn (S i) l).
  rewrite IH; reflexivity.
Qed.

Lemma used_flag (sat : satellite_t.t) :
  (0 <? Z.b2z (satellite_t.used sat)) = satellite_t.used sat.
Proof. destruct (satellite_t.used sat); reflexivity. Qed.

Lemma snr_loop_sum_prefix (g : gps_data_t) :
  forall n i acc,
    snr_loop n (Z.of_nat i) g acc = sum_prefix n (skipn i (skyview g)) acc.
Proof.
  induction n as [|n IH]; intros i acc; [reflexivity|].
  cbn [snr_loop]. rewrite Nat2Z.id, nth_error_skipn.
  replace (Z.of_nat i + 1) with (Z.of_nat (S i)) by lia.
  pose proof (skipn_succ (skyview g) i) as Htl.
  destruct (skipn i (skyview g)) as [|s l']; [reflexivity|].
  cbn [hd_error sum_prefix tl] in *.
  rewrite IH, Htl, used_flag. reflexivity.
Qed.

Lemma snr_sum_sum_prefix (g : gps_data_t) :
  snr_sum g
  = sum_prefix (Z.to_nat (satellites_used g + 1)) (skyview g) (Double.of_int 0).
Proof. exact (snr_loop_sum_prefix g _ 0%nat _). Qed.

Lemma sum_prefix_firstn :
  forall n l acc, sum_prefix n l acc = sum_prefix n (firstn n l) acc.
Proof.
  induction n as [|n IH]; intros [|s l] acc; simpl; auto.
Qed.

Lemma sum_prefix_defined :
  forall n l acc,
    (n <= List.length l)%nat ->
    sum_prefix n l acc = Some (fold_left loop_body (firstn n l) acc).
Proof.
  induction n as [|n IH]; intros [|s l] acc Hn; simpl in *; auto; try lia.
  apply IH; lia.
Qed.

Lemma fold_step_filter :
  forall l acc,
    fold_left loop_body l acc
    = fold_left (fun a sat => Double.add a (satellite_t.ss sat))
        (filter qualifies l) acc.
Proof.
  induction l as [|s l IH]; intros acc; simpl; auto.
  unfold loop_body at 2. destruct (qualifies s); simpl; apply IH.
Qed.

(** Within the array, the loop's total is the specification's sum taken
    over the first [used + 1] entries. *)
Lemma snr_sum_in_bounds (g : gps_data_t) :
  (Z.to_nat (satellites_used g + 1) <= List.length (skyview g))%nat ->
  snr_sum g
  = Some (spec_snr_sum
            (firstn (Z.to_nat (satellites_used g + 1)) (skyview g))).
Proof.
  intros Hn. rewrite snr_sum_sum_prefix, sum_prefix_defined by exact Hn.
  unfold spec_snr_sum. rewrite fold_step_filter. reflexivity.
Qed.

(** The code meets the specification's average on every report whose
    qualifying records are those of the first [used + 1] entries. *)
Lemma aggregate_meets_spec (g : gps_data_t) :
  (Z.to_nat (satellites_used g + 1) <= List.length (skyview g))%nat ->
  filter qualifies (report_records g)
  = filter qualifies (firstn (Z.to_nat (satellites_used g + 1)) (skyview g)) ->
  exists l, aggregate g = Some l /\ snr_avg l = spec_averageSnr g.
Proof.
  intros Hn Hq. unfold aggregate. rewrite (snr_sum_in_bounds g Hn).
  eexists; split; [reflexivity|]. simpl.
  unfold average, spec_averageSnr, spec_snr_sum. rewrite Hq. reflexivity.
Qed.

Lemma loop_body_nonneg (acc : double) (sat : satellite_t.t) :
  Double.nonneg acc = true -> Double.nonneg (loop_body acc sat) = true.
Proof.
  intros Hacc. unfold loop_body, qualifies.
  destruct (satellite_t.used sat); [|exact Hacc]. cbn [andb].
  destruct (Double.ltb (Double.of_int 1) (satellite_t.ss sat)) eqn:Hss;
    [|exact Hacc].
  apply FloatFacts.add_nonneg; [exact Hacc|].
  apply FloatFacts.ltb_one_nonneg, Hss.
Qed.

Lemma sum_prefix_nonneg :
  forall n l acc total,
    Double.nonneg acc = true ->
    sum_prefix n l acc = Some total ->
    Double.nonneg total = true.
Proof.
  induction n as [|n IH]; intros [|s l] acc total Hacc Hsum;
    cbn [sum_prefix] in Hsum; try discriminate.
  - injection Hsum as <-. exact Hacc.
  - injection Hsum as <-. exact Hacc.
  - apply (IH l (loop_body acc s) total); [|exact Hsum].
    apply loop_body_nonneg, Hacc.
Qed.

(** The average is [+0.0], a positive finite number, or [+inf] when the
    sum overflowed: never a NaN and never negative. *)
Lemma snr_avg_nonneg (g : gps_data_t) (l : locals) :
  satellites_used g < 2 ^ 31 ->
  aggregate g = Some l ->
  Double.nonneg (snr_avg l) = true.
Proof.
  intros Hint. unfold aggregate.
  destruct (snr_sum g) as [snr_total|] eqn:Hsum; [|discriminate].
  intros [= <-]. cbn [snr_avg]. unfold average.
  destruct (Z.ltb_spec 0 (satellites_used g)) as [Hpos|_]; [|reflexivity].
  destruct (FloatFacts.of_int_finite (satellites_used g)) as (m & e & ->);
    [lia|].
  apply FloatFacts.div_nonneg.
  rewrite snr_sum_sum_prefix in Hsum.
  eapply sum_prefix_nonneg; [|exact Hsum]. reflexivity.
Qed.

End Aggregator.

(** C1, at the report [sky_used_last] (one satellite used, three in view,
    the used one at position 2 with signal strength 30): the loop stops
    after positions 0 and 1, so the program's average is 0.0, where the sum
    over the report's used records divided by satellitesUsed is 30.0. *)
Theorem C1_average_misses_used_record :
  aggregate sky_used_last
  = Some {| used := 1; visible := 3; snr_avg := Double.zero |}
  /\ spec_averageSnr sky_used_last = Double.of_int 30
  /\ Double.of_int 30 <> Double.zero
  /\ report "gpssnmp" OID_SNR_AVG sky_used_last
     = ([gps_close; stdout (".1.3.6.1.2.1.25.1.33 = gauge: 0.000000" ++ nl)],
        Exit 0).
Proof.
  split; [|split; [|split]];
    [vm_compute; reflexivity .. | discriminate | vm_compute; reflexivity].
Qed.

(** C6: when satellitesUsed is 0 the average stays 0.0 whatever the records
    hold; the division is not evaluated for a count of zero. *)
Theorem C6_zero_used_average_zero (g : gps_data_t) :
  satellites_used g = 0 ->
  skyview g <> [] ->
  (exists snr_total, snr_sum g = Some snr_total)
  /\ aggregate g
     = Some {| used := 0; visible := satellites_visible g;
               snr_avg := Double.zero |}
  /\ forall snr_total, average snr_total 0 = Double.zero.
Proof.
  intros Hused Hsky.
  assert (Hsum : exists snr_total, snr_sum g = Some snr_total).
  { rewrite Aggregator.snr_sum_in_bounds; [eexists; reflexivity|].
    rewrite Hused. destruct (skyview g); [contradiction|simpl; lia]. }
  split; [exact Hsum|]. split; [|reflexivity].
  destruct Hsum as [snr_total Hsum].
  unfold aggregate. rewrite Hsum, Hused. reflexivity.
Qed.

Lemma C6_witness :
  satellites_used no_sky = 0 /\ skyview no_sky <> []
  /\ aggregate no_sky
     = Some {| used := 0; visible := 0; snr_avg := Double.zero |}.
Proof.
  split; [reflexivity|]. split; [discriminate|].
  apply (C6_zero_used_average_zero no_sky); [reflexivity|discriminate].
Defined.

(** C9: the sum reads the records at positions 0 to satellitesUsed and
    nothing else: two session structures with the same satellitesUsed and
    the same first [satellitesUsed + 1] records give the same sum, whatever
    the later records and satellitesVisible are; within the array the sum
    is the one over exactly those records. *)
Theorem C9_sum_reads_first_used_plus_one (g : gps_data_t) :
  (forall g' : gps_data_t,
      satellites_used g' = satellites_used g ->
      firstn (Z.to_nat (satellites_used g + 1)) (skyview g')
      = firstn (Z.to_nat (satellites_used g + 1)) (skyview g) ->
      snr_sum g' = snr_sum g)
  /\ ((Z.to_nat (satellites_used g + 1) <= List.length (skyview g))%nat ->
      snr_sum g
      = Some (spec_snr_sum
                (firstn (Z.to_nat (satellites_used g + 1)) (skyview g)))).
Proof.
  split.
  - intros g' Hused Hfirst.
    rewrite !Aggregator.snr_sum_sum_prefix, Hused.
    rewrite Aggregator.sum_prefix_firstn, Hfirst.
    symmetry; apply Aggregator.sum_prefix_firstn.
  - apply Aggregator.snr_sum_in_bounds.
Qed.


(** * The shape of what printf writes *)

Module Printf.














Theorem printf_lf_not_finite (x : double) :
  Double.is_finite x = false ->
  printf_lf x = "inf"%string \/ printf_lf x = "-inf"%string
  \/ printf_lf x = "nan"%string.
Proof.
  destruct x as [s|[|]| |s m e]; try discriminate; intros _; cbn; auto.
Qed.



End Printf.

(** * The identifier table (lines 185-206) *)

Module Resolver.

Lemma resolve_xlate (argv0 oid : string) (l : locals) :
  resolve xlate argv0 oid l
  = if (OID_VISIBLE =? oid)%string then
      ([stdout (OID_VISIBLE ++ " = gauge: " ++ printf_d (visible l) ++ nl)],
       Exit 0)
    else if (OID_USED =? oid)%string then
      ([stdout (OID_USED ++ " = gauge: " ++ printf_d (used l) ++ nl)],
       Exit 0)
    else if (OID_SNR_AVG =? oid)%string then
      ([stdout (OID_SNR_AVG ++ " = gauge: " ++ printf_lf (snr_avg l) ++ nl)],
       Exit 0)
    else
      ([stderr (argv0 ++ ": ERROR: Unknown OID " ++ oid ++ nl ++ nl);
        stdout (usage_text argv0)], Exit 1).
Proof.
  cbn [resolve xlate oid_mib_xlate.oid].
  destruct (OID_VISIBLE =? oid)%string; [reflexivity|].
  destruct (OID_USED =? oid)%string; [reflexivity|].
  destruct (OID_SNR_AVG =? oid)%string; reflexivity.
Qed.

Lemma resolve_known (argv0 oid : string) (l : locals) (v : string) :
  gauge_value oid l = Some v ->
  resolve xlate argv0 oid l
  = ([stdout (oid ++ " = gauge: " ++ v ++ nl)], Exit 0).
Proof.
  unfold gauge_value. rewrite resolve_xlate.
  rewrite (String.eqb_sym OID_VISIBLE), (String.eqb_sym OID_USED),
    (String.eqb_sym OID_SNR_AVG).
  destruct (String.eqb_spec oid OID_VISIBLE) as [->|_];
    [intros [= <-]; reflexivity|].
  destruct (String.eqb_spec oid OID_USED) as [->|_];
    [intros [= <-]; reflexivity|].
  destruct (String.eqb_spec oid OID_SNR_AVG) as [->|_];
    [intros [= <-]; reflexivity|discriminate].
Qed.

Lemma resolve_unknown (argv0 oid : string) (l : locals) :
  gauge_value oid l = None ->
  resolve xlate argv0 oid l
  = ([stderr (argv0 ++ ": ERROR: Unknown OID " ++ oid ++ nl ++ nl);
      stdout (usage_text argv0)], Exit 1).
Proof.
  unfold gauge_value. rewrite resolve_xlate.
  rewrite (String.eqb_sym OID_VISIBLE), (String.eqb_sym OID_USED),
    (String.eqb_sym OID_SNR_AVG).
  destruct (oid =? OID_VISIBLE)%string; [discriminate|].
  destruct (oid =? OID_USED)%string; [discriminate|].
  destruct (oid =? OID_SNR_AVG)%string; [discriminate|reflexivity].
Qed.

(** The scan agrees with the table read as a mapping. *)
Lemma gauge_value_unknown (oid : string) (l : locals) :
  oid <> OID_VISIBLE -> oid <> OID_USED -> oid <> OID_SNR_AVG ->
  gauge_value oid l = None.
Proof.
  intros H1 H2 H3. unfold gauge_value.
  apply String.eqb_neq in H1, H2, H3. rewrite H1, H2, H3. reflexivity.
Qed.

End Resolver.

(** C5: the resolver is total on the table.  Each of the three identifiers
    gives the one line of its own metric and exit code 0; any other string
    gives the Unknown OID message naming that string on stderr, the usage
    text, and exit code 1. *)
Theorem C5_resolver_total (argv0 oid : string) (l : locals) :
  resolve xlate argv0 OID_VISIBLE l
  = ([stdout (OID_VISIBLE ++ " = gauge: " ++ printf_d (visible l) ++ nl)],
     Exit 0)
  /\ resolve xlate argv0 OID_USED l
     = ([stdout (OID_USED ++ " = gauge: " ++ printf_d (used l) ++ nl)],
        Exit 0)
  /\ resolve xlate argv0 OID_SNR_AVG l
     = ([stdout (OID_SNR_AVG ++ " = gauge: " ++ printf_lf (snr_avg l) ++ nl)],
        Exit 0)
  /\ (oid <> OID_VISIBLE -> oid <> OID_USED -> oid <> OID_SNR_AVG ->
      resolve xlate argv0 oid l
      = ([stderr (argv0 ++ ": ERROR: Unknown OID " ++ oid ++ nl ++ nl);
          stdout (usage_text argv0)], Exit 1)).
Proof.
  repeat split; try reflexivity.
  intros H1 H2 H3.
  apply Resolver.resolve_unknown, Resolver.gauge_value_unknown; assumption.
Qed.

Lemma C5_witness :
  resolve xlate "gpssnmp" ".1.3.6.1.2.1.25.1.34"
    {| used := 4; visible := 13; snr_avg := Double.of_int 22 |}
  = ([stderr ("gpssnmp: ERROR: Unknown OID .1.3.6.1.2.1.25.1.34" ++ nl ++ nl);
      stdout (usage_text "gpssnmp")], Exit 1).
Proof.
  apply (C5_resolver_total "gpssnmp" ".1.3.6.1.2.1.25.1.34"
           {| used := 4; visible := 13; snr_avg := Double.of_int 22 |});
    discriminate.
Defined.

(** * The poll loop (lines 149-170) and [main] *)

Section Loop.

Variable SATELLITE_SET : Z.

Lemma trace_pair {A : Type} (t : list event) (r : res A) :
  trace (t, r) = t.
Proof. reflexivity. Qed.

(** One turn of the loop, case by case. *)
Lemma poll_loop_S (fuel : nat) (w : world) (k : nat) (g : gps_data_t) :
  poll_loop SATELLITE_SET (S fuel) w k g
  = let p := polls w k in
    if ready p then
      if status p =? -1 then
        ([gps_waiting true; gps_read (-1); stderr read_failed_msg], Exit 1)
      else if Z.land SATELLITE_SET (set (data p)) =? 0 then
        if timed_out (ts_start w) (ts_now p) then
          ([gps_waiting true; gps_read (status p);
            clock_gettime (ts_now p); stderr timeout_msg], Exit 1)
        else
          ([gps_waiting true; gps_read (status p); clock_gettime (ts_now p)]
           ++ trace (poll_loop SATELLITE_SET fuel w (S k) (data p)),
           result (poll_loop SATELLITE_SET fuel w (S k) (data p)))
      else
        ([gps_waiting true; gps_read (status p)], Val (data p))
    else ([gps_waiting false], Val g).
Proof.
  cbn [poll_loop]. cbv zeta.
  destruct (ready (polls w k)); [|reflexivity].
  destruct (Z.eqb_spec (status (polls w k)) (-1)) as [->|_]; [reflexivity|].
  destruct (Z.land SATELLITE_SET (set (data (polls w k))) =? 0);
    [|reflexivity].
  destruct (timed_out (ts_start w) (ts_now (polls w k))); [reflexivity|].
  unfold bind, trace, result; cbn [fst snd emit app].
  destruct (poll_loop SATELLITE_SET fuel w (S k) (data (polls w k)))
    as [t [a|c| |]]; reflexivity.
Qed.

Lemma goes_round_true (w : world) (k : nat) :
  goes_round SATELLITE_SET w k = true ->
  ready (polls w k) = true
  /\ (status (polls w k) =? -1) = false
  /\ (Z.land SATELLITE_SET (set (data (polls w k))) =? 0) = true
  /\ timed_out (ts_start w) (ts_now (polls w k)) = false.
Proof.
  unfold goes_round; cbv zeta. intros H.
  repeat (apply andb_prop in H as [H ?]).
  repeat split; try assumption; apply negb_true_iff; assumption.
Qed.

Lemma session_from_S (w : world) (g : gps_data_t) (j k : nat) :
  session_from w (data (polls w j)) (S j) k = session_from w g j (S k).
Proof.
  destruct k as [|k]; cbn [session_from].
  - rewrite Nat.add_0_r; reflexivity.
  - do 2 f_equal; lia.
Qed.

(** [k] turns that go round leave their calls in the trace and hand the
    loop on. *)
Lemma poll_loop_rounds (w : world) :
  forall (k fuel j : nat) (g : gps_data_t),
    (forall i, (j <= i < j + k)%nat -> goes_round SATELLITE_SET w i = true) ->
    poll_loop SATELLITE_SET (k + fuel) w j g
    = (rounds w j k
       ++ trace (poll_loop SATELLITE_SET fuel w (j + k) (session_from w g j k)),
       result (poll_loop SATELLITE_SET fuel w (j + k) (session_from w g j k))).
Proof.
  induction k as [|k IH]; intros fuel j g Hround.
  - cbn [rounds session_from Nat.add app]. rewrite Nat.add_0_r.
    destruct (poll_loop SATELLITE_SET fuel w j g); reflexivity.
  - change (S k + fuel)%nat with (S (k + fuel)). rewrite poll_loop_S. cbv zeta.
    destruct (goes_round_true w j) as (-> & -> & -> & ->);
      [apply Hround; lia|].
    rewrite (IH fuel (S j) (data (polls w j))) by (intros i Hi; apply Hround; lia).
    rewrite session_from_S with (g := g).
    replace (S j + k)%nat with (j + S k)%nat by lia.
    unfold trace, result; cbn [fst snd rounds].
    rewrite <- app_assoc. reflexivity.
Qed.

(** What a run is made of, once the loop is reached. *)
Lemma main_polls (fuel : nat) (argv0 oid : string) (w : world) :
  oid <> ""%string ->
  open_status w = 0 ->
  main SATELLITE_SET fuel argv0 oid w
  = let poll := poll_loop SATELLITE_SET fuel w 0 (opened w) in
    match result poll with
    | Val g =>
        (prologue w ++ trace poll ++ trace (report argv0 oid g),
         result (report argv0 oid g))
    | Exit code => (prologue w ++ trace poll, Exit code)
    | Undefined => (prologue w ++ trace poll, Undefined)
    | Polling => (prologue w ++ trace poll, Polling)
    end.
Proof.
  intros Hoid Hopen. unfold main, prologue.
  apply String.eqb_neq in Hoid. rewrite Hoid, Hopen. cbv zeta.
  unfold bind, trace, result; cbn [fst snd emit ret app negb Z.eqb].
  destruct (poll_loop SATELLITE_SET fuel w 0 (opened w)) as [t [g|c| |]];
    cbn [fst snd]; try reflexivity.
Qed.

Lemma report_aggregate (argv0 oid : string) (g : gps_data_t) :
  report argv0 oid g
  = match aggregate g with
    | Some l =>
        (gps_close :: trace (resolve xlate argv0 oid l),
         result (resolve xlate argv0 oid l))
    | None => ([], Undefined)
    end.
Proof.
  unfold report, aggregate.
  destruct (snr_sum g) as [snr_total|]; [|reflexivity].
  unfold bind, trace, result; cbn [fst snd defined ret emit app].
  destruct (resolve xlate argv0 oid _) as [t r]; reflexivity.
Qed.

Lemma resolve_no_close (argv0 oid : string) (l : locals) :
  ~ In gps_close (trace (resolve xlate argv0 oid l)).
Proof.
  rewrite Resolver.resolve_xlate.
  destruct (OID_VISIBLE =? oid)%string;
    [|destruct (OID_USED =? oid)%string;
      [|destruct (OID_SNR_AVG =? oid)%string]];
    cbn [trace fst In]; intuition discriminate.
Qed.

(** The loop writes nothing on stdout and never closes the session; when
    it exits, it exits with code 1 right after one of its two messages. *)
Lemma poll_loop_quiet (w : world) :
  forall (fuel j : nat) (g : gps_data_t),
    let poll := poll_loop SATELLITE_SET fuel w j g in
    on_stdout (trace poll) = []
    /\ ~ In gps_close (trace poll)
    /\ match result poll with
       | Exit code =>
           code = 1
           /\ exists pre,
               trace poll = pre ++ [stderr timeout_msg]
               \/ trace poll = pre ++ [stderr read_failed_msg]
       | Undefined => False
       | Val _ | Polling => True
       end.
Proof.
  induction fuel as [|fuel IH]; intros j g; cbv zeta.
  - cbn [poll_loop trace result fst snd on_stdout In]. tauto.
  - rewrite poll_loop_S. cbv zeta.
    destruct (ready (polls w j));
      [|cbn [trace result fst snd on_stdout In]; intuition discriminate].
    destruct (status (polls w j) =? -1).
    { cbn [trace result fst snd on_stdout In].
      repeat split; [intuition discriminate|].
      exists [gps_waiting true; gps_read (-1)]. right. reflexivity. }
    destruct (Z.land SATELLITE_SET (set (data (polls w j))) =? 0);
      [|cbn [trace result fst snd on_stdout In]; intuition discriminate].
    destruct (timed_out (ts_start w) (ts_now (polls w j))).
    { cbn [trace result fst snd on_stdout In].
      repeat split; [intuition discriminate|].
      exists [gps_waiting true; gps_read (status (polls w j));
              clock_gettime (ts_now (polls w j))]. left. reflexivity. }
    specialize (IH (S j) (data (polls w j))). cbv zeta in IH.
    destruct IH as (Hout & Hclose & Hexit).
    unfold trace at 1 2, result at 1; cbn [fst snd app on_stdout In].
    repeat split.
    + exact Hout.
    + intros [H|[H|[H|H]]]; try discriminate. exact (Hclose H).
    + destruct (result (poll_loop SATELLITE_SET fuel w (S j) (data (polls w j))));
        try exact Hexit.
      destruct Hexit as [Hcode [pre Hpre]]. split; [exact Hcode|].
      exists (gps_waiting true :: gps_read (status (polls w j))
              :: clock_gettime (ts_now (polls w j)) :: pre).
      cbn [app]. destruct Hpre as [-> | ->]; [left|right]; reflexivity.
Qed.

(** A run whose first [k] turns go round, seen from turn [k]. *)
Lemma main_after_rounds (k f : nat) (argv0 oid : string) (w : world) :
  oid <> ""%string ->
  open_status w = 0 ->
  (forall j, (j < k)%nat -> goes_round SATELLITE_SET w j = true) ->
  main SATELLITE_SET (k + S f) argv0 oid w
  = let poll := poll_loop SATELLITE_SET (S f) w k (session w k) in
    match result poll with
    | Val g =>
        (prologue w ++ rounds w 0 k ++ trace poll ++ trace (report argv0 oid g),
         result (report argv0 oid g))
    | Exit code => (prologue w ++ rounds w 0 k ++ trace poll, Exit code)
    | Undefined => (prologue w ++ rounds w 0 k ++ trace poll, Undefined)
    | Polling => (prologue w ++ rounds w 0 k ++ trace poll, Polling)
    end.
Proof.
  intros Hoid Hopen Hround.
  rewrite main_polls by assumption. cbv zeta.
  rewrite (poll_loop_rounds w k (S f) 0 (opened w))
    by (intros i Hi; apply Hround; lia).
  cbn [Nat.add]. fold (session w k).
  unfold trace at 1 2 3 4, result at 1; cbn [fst snd].
  destruct (result (poll_loop SATELLITE_SET (S f) w k (session w k)));
    rewrite <- ?app_assoc; reflexivity.
Qed.

Lemma first_true (P : nat -> bool) (n : nat) :
  P n = true ->
  exists k, (k <= n)%nat /\ P k = true
            /\ forall j, (j < k)%nat -> P j = false.
Proof.
  intros Hn.
  assert (Hscan : forall m,
             (forall j, (j < m)%nat -> P j = false)
             \/ exists k, (k < m)%nat /\ P k = true
                          /\ forall j, (j < k)%nat -> P j = false).
  { induction m as [|m [Hnone|(k & Hk & Hpk & Hmin)]].
    - left; intros j Hj; lia.
    - destruct (P m) eqn:Hm.
      + right; exists m; repeat split; [lia|assumption|assumption].
      + left; intros j Hj.
        destruct (Nat.eq_dec j m) as [->|]; [assumption|apply Hnone; lia].
    - right; exists k; repeat split; [lia|assumption|assumption]. }
  destruct (Hscan n) as [Hnone|(k & Hk & Hpk & Hmin)].
  - exists n; repeat split; [lia|assumption|assumption].
  - exists k; repeat split; [lia|assumption|assumption].
Qed.

Lemma main_missing_option (fuel : nat) (argv0 : string) (w : world) :
  main SATELLITE_SET fuel argv0 "" w
  = ([stderr (argv0 ++ ": ERROR: Missing option" ++ nl ++ nl);
      stdout (usage_text argv0)], Exit 1).
Proof. reflexivity. Qed.

Lemma main_connection_failed (fuel : nat) (argv0 oid : string) (w : world) :
  oid <> ""%string ->
  open_status w <> 0 ->
  main SATELLITE_SET fuel argv0 oid w
  = ([gps_open (open_status w);
      stderr ("gpssnmp: ERROR: connection failed: "
              ++ printf_d (open_status w) ++ nl)], Exit 1).
Proof.
  intros Hoid Hopen. unfold main.
  apply String.eqb_neq in Hoid. apply Z.eqb_neq in Hopen.
  rewrite Hoid, Hopen. reflexivity.
Qed.

(** Only a run that held a session can have opened one. *)
Lemma main_opened (fuel : nat) (argv0 oid : string) (w : world) :
  In (gps_open 0) (trace (main SATELLITE_SET fuel argv0 oid w)) ->
  oid <> ""%string /\ open_status w = 0.
Proof.
  intros Hin.
  destruct (String.eqb_spec oid "") as [->|Hoid].
  - rewrite main_missing_option in Hin. cbn [trace fst In] in Hin.
    intuition discriminate.
  - split; [exact Hoid|].
    destruct (Z.eq_dec (open_status w) 0) as [|Hopen]; [assumption|].
    rewrite main_connection_failed in Hin by assumption.
    cbn [trace fst In] in Hin.
    destruct Hin as [[= H]|[H|[]]]; [contradiction|discriminate].
Qed.

Lemma on_stdout_app (a b : list event) :
  on_stdout (a ++ b) = on_stdout a ++ on_stdout b.
Proof.
  induction a as [|e a IH]; [reflexivity|].
  destruct e; cbn [app on_stdout]; rewrite IH; reflexivity.
Qed.

Lemma all_go_round (w : world) (k : nat) :
  (forall j, ready (polls w j) = true
             /\ status (polls w j) <> -1
             /\ Z.land SATELLITE_SET (set (data (polls w j))) = 0) ->
  (forall j, (j < k)%nat ->
             timed_out (ts_start w) (ts_now (polls w j)) = false) ->
  forall j, (j < k)%nat -> goes_round SATELLITE_SET w j = true.
Proof.
  intros Hall Hclock j Hj. unfold goes_round. cbv zeta.
  destruct (Hall j) as (-> & Hst & ->).
  apply Z.eqb_neq in Hst. rewrite Hst, (Hclock j Hj). reflexivity.
Qed.

(** With a transport that is always ready and whose reads all succeed
    without a sky view, the run ends at the first turn on which the deadline
    test fires, for every amount of fuel that reaches that turn. *)
Lemma times_out_at_first_late_reading
  (argv0 oid : string) (w : world) (n : nat) :
  oid <> ""%string ->
  open_status w = 0 ->
  (forall k, ready (polls w k) = true
             /\ status (polls w k) <> -1
             /\ Z.land SATELLITE_SET (set (data (polls w k))) = 0) ->
  timed_out (ts_start w) (ts_now (polls w n)) = true ->
  exists k,
    (k <= n)%nat
    /\ timed_out (ts_start w) (ts_now (polls w k)) = true
    /\ (forall j, (j < k)%nat ->
                  timed_out (ts_start w) (ts_now (polls w j)) = false)
    /\ forall fuel, (k < fuel)%nat ->
         main SATELLITE_SET fuel argv0 oid w
         = (prologue w ++ rounds w 0 k
            ++ [gps_waiting true; gps_read (status (polls w k));
                clock_gettime (ts_now (polls w k)); stderr timeout_msg],
            Exit 1).
Proof.
  intros Hoid Hopen Hall Hn.
  destruct (first_true (fun k => timed_out (ts_start w) (ts_now (polls w k)))
              n Hn) as (k & Hk & Hpk & Hmin).
  exists k. repeat split; try assumption.
  intros fuel Hfuel.
  replace fuel with (k + S (fuel - k - 1))%nat by lia.
  rewrite main_after_rounds;
    [|assumption|assumption|apply all_go_round; assumption].
  rewrite poll_loop_S. cbv zeta.
  destruct (Hall k) as (-> & Hst & ->).
  apply Z.eqb_neq in Hst. rewrite Hst, Hpk. reflexivity.
Qed.

(** C7: when a read fails, the run stops there: the failed read is
    followed by the read-failed message on stderr and [exit(1)], with no
    further wait, read, close or output. *)
Theorem C7_read_error_aborts
  (argv0 oid : string) (w : world) (k fuel : nat) :
  oid <> ""%string ->
  open_status w = 0 ->
  (forall j, (j < k)%nat -> goes_round SATELLITE_SET w j = true) ->
  ready (polls w k) = true ->
  status (polls w k) = -1 ->
  (k < fuel)%nat ->
  main SATELLITE_SET fuel argv0 oid w
  = (prologue w ++ rounds w 0 k
     ++ [gps_waiting true; gps_read (-1); stderr read_failed_msg],
     Exit 1).
Proof.
  intros Hoid Hopen Hround Hready Hstatus Hfuel.
  replace fuel with (k + S (fuel - k - 1))%nat by lia.
  rewrite main_after_rounds by assumption.
  rewrite poll_loop_S. cbv zeta.
  rewrite Hready, Hstatus. reflexivity.
Qed.

Lemma gauge_value_nonempty (oid : string) (l : locals) (v : string) :
  gauge_value oid l = Some v -> oid <> ""%string.
Proof. intros H ->. discriminate. Qed.

(** C10: when gpsd has nothing ready before any sky view came, the loop
    is left without a timeout; the program sums what the session structure
    holds from the last read (or from [gps_open]), closes, prints the
    requested gauge and exits with code 0. *)
Theorem C10_nothing_ready_reports_session
  (argv0 oid : string) (w : world) (k fuel : nat) (l : locals) (v : string) :
  open_status w = 0 ->
  (forall j, (j < k)%nat -> goes_round SATELLITE_SET w j = true) ->
  ready (polls w k) = false ->
  aggregate (session w k) = Some l ->
  gauge_value oid l = Some v ->
  (k < fuel)%nat ->
  main SATELLITE_SET fuel argv0 oid w
  = (prologue w ++ rounds w 0 k
     ++ [gps_waiting false; gps_close;
         stdout (oid ++ " = gauge: " ++ v ++ nl)],
     Exit 0).
Proof.
  intros Hopen Hround Hready Hagg Hv Hfuel.
  replace fuel with (k + S (fuel - k - 1))%nat by lia.
  rewrite main_after_rounds;
    [|exact (gauge_value_nonempty oid l v Hv)|assumption|assumption].
  rewrite poll_loop_S. cbv zeta. rewrite Hready.
  cbn [result snd trace fst].
  rewrite report_aggregate, Hagg, (Resolver.resolve_known argv0 oid l v Hv).
  reflexivity.
Qed.

Lemma prologue_quiet (w : world) (t : list event) :
  ~ In gps_close t -> on_stdout t = [] ->
  ~ In gps_close (prologue w ++ t) /\ on_stdout (prologue w ++ t) = [].
Proof.
  intros Hclose Hout. split; [|exact Hout].
  cbn [prologue app In]. intuition discriminate.
Qed.

(** C2, as the code has it: a run that held a session and came to an end
    either left the loop, and then called [gps_close] once, before writing
    anything on stdout and before the resolver reported; or it ended
    inside the loop, on the read error or on the timeout, and then exited
    with code 1 right after the message, without a call of [gps_close]. *)
Theorem C2_close_unless_exit_in_loop
  (fuel : nat) (argv0 oid : string) (w : world) (code : Z) :
  result (main SATELLITE_SET fuel argv0 oid w) = Exit code ->
  In (gps_open 0) (trace (main SATELLITE_SET fuel argv0 oid w)) ->
  (exists pre l,
      trace (main SATELLITE_SET fuel argv0 oid w)
      = pre ++ gps_close :: trace (resolve xlate argv0 oid l)
      /\ ~ In gps_close pre
      /\ on_stdout pre = []
      /\ ~ In gps_close (trace (resolve xlate argv0 oid l)))
  \/ (code = 1
      /\ ~ In gps_close (trace (main SATELLITE_SET fuel argv0 oid w))
      /\ exists pre,
          trace (main SATELLITE_SET fuel argv0 oid w)
          = pre ++ [stderr timeout_msg]
          \/ trace (main SATELLITE_SET fuel argv0 oid w)
             = pre ++ [stderr read_failed_msg]).
Proof.
  intros Hexit Hopened.
  destruct (main_opened _ _ _ _ Hopened) as [Hoid Hopen].
  rewrite main_polls in * by assumption. cbv zeta in *.
  destruct (poll_loop_quiet w fuel 0 (opened w)) as (Hout & Hclose & Hloop).
  destruct (prologue_quiet w _ Hclose Hout) as [Hclose' Hout'].
  destruct (result (poll_loop SATELLITE_SET fuel w 0 (opened w)))
    as [g|c| |]; try discriminate.
  - rewrite report_aggregate in *.
    destruct (aggregate g) as [l|]; [|discriminate].
    left. exists (prologue w ++ trace (poll_loop SATELLITE_SET fuel w 0 (opened w))), l.
    rewrite !trace_pair.
    rewrite app_assoc. repeat split; try assumption.
    apply resolve_no_close.
  - right. destruct Hloop as [-> [pre Hpre]].
    cbn [result snd] in Hexit. injection Hexit as <-.
    rewrite !trace_pair.
    repeat split; [assumption|].
    exists (prologue w ++ pre). rewrite <- !app_assoc.
    destruct Hpre as [-> | ->]; [left|right]; reflexivity.
Qed.


End Loop.

(** * The claims at sample inputs *)

Lemma C9_witness : snr_sum sky_used_last' = snr_sum sky_used_last.
Proof.
  apply (proj1 (C9_sum_reads_first_used_plus_one sky_used_last) sky_used_last');
    reflexivity.
Defined.

Lemma C7_witness :
  main SATELLITE_SET_gps_h 5 "gpssnmp" OID_USED read_fails
  = (prologue read_fails ++ rounds read_fails 0 2
     ++ [gps_waiting true; gps_read (-1); stderr read_failed_msg],
     Exit 1).
Proof.
  apply (C7_read_error_aborts SATELLITE_SET_gps_h "gpssnmp" OID_USED
           read_fails 2 5).
  - discriminate.
  - reflexivity.
  - intros j Hj. destruct j as [|[|j]]; [reflexivity..|lia].
  - reflexivity.
  - reflexivity.
  - lia.
Defined.

Lemma C10_witness :
  main SATELLITE_SET_gps_h 5 "gpssnmp" OID_VISIBLE goes_quiet
  = (prologue goes_quiet ++ rounds goes_quiet 0 2
     ++ [gps_waiting false; gps_close;
         stdout (OID_VISIBLE ++ " = gauge: " ++ "0" ++ nl)],
     Exit 0).
Proof.
  apply (C10_nothing_ready_reports_session SATELLITE_SET_gps_h "gpssnmp"
           OID_VISIBLE goes_quiet 2 5
           {| used := 0; visible := 0; snr_avg := Double.zero |} "0").
  - reflexivity.
  - intros j Hj. destruct j as [|[|j]]; [reflexivity..|lia].
  - reflexivity.
  - reflexivity.
  - reflexivity.
  - lia.
Defined.

(** C2 as stated fails on a read error: the run of [read_fails] held a
    session and exited, and its trace has no call of [gps_close]. *)
Lemma C2_read_error_exits_without_close :
  result (main SATELLITE_SET_gps_h 5 "gpssnmp" OID_USED read_fails) = Exit 1
  /\ In (gps_open 0)
       (trace (main SATELLITE_SET_gps_h 5 "gpssnmp" OID_USED read_fails))
  /\ ~ In gps_close
         (trace (main SATELLITE_SET_gps_h 5 "gpssnmp" OID_USED read_fails)).
Proof.
  split; [reflexivity|]. split; [left; reflexivity|].
  vm_compute. intuition discriminate.
Qed.

Lemma C2_witness :
  (exists pre l,
      trace (main SATELLITE_SET_gps_h 5 "gpssnmp" OID_USED (steady sky_5_4))
      = pre ++ gps_close :: trace (resolve xlate "gpssnmp" OID_USED l)
      /\ ~ In gps_close pre
      /\ on_stdout pre = []
      /\ ~ In gps_close (trace (resolve xlate "gpssnmp" OID_USED l)))
  \/ (0 = 1
      /\ ~ In gps_close
             (trace (main SATELLITE_SET_gps_h 5 "gpssnmp" OID_USED
                       (steady sky_5_4)))
      /\ exists pre,
          trace (main SATELLITE_SET_gps_h 5 "gpssnmp" OID_USED (steady sky_5_4))
          = pre ++ [stderr timeout_msg]
          \/ trace (main SATELLITE_SET_gps_h 5 "gpssnmp" OID_USED
                      (steady sky_5_4))
             = pre ++ [stderr read_failed_msg]).
Proof.
  apply (C2_close_unless_exit_in_loop SATELLITE_SET_gps_h 5 "gpssnmp" OID_USED
           (steady sky_5_4) 0).
  - reflexivity.
  - left; reflexivity.
Defined.

(** C4 as stated fails for a large step back: no time has passed since the
    start, the clock was set back by 50 seconds, and the deadline test
    fires. *)
Lemma C4_step_back_fires_at_once :
  ~ (forall (start : timespec) (elapsed back : Z),
        0 <= elapsed <= 10 -> 0 <= back ->
        timed_out start (set_back start elapsed back) = false).
Proof.
  intros H. specialize (H (at_sec 100) 0 50 ltac:(lia) ltac:(lia)).
  discriminate H.
Qed.

(** C4, as the code has it: the deadline test compares the magnitude of
    the difference of the whole seconds of the two readings with 10, in
    either direction, and leaves the nanoseconds out.  For a reading taken
    [elapsed] nanoseconds after the start on a clock set back by [back]
    nanoseconds in between: the test fires whenever [elapsed] exceeds
    [back] by 11 seconds or more (late, never bypassed) and whenever [back]
    exceeds [elapsed] by 11 seconds or more (at once, for a large step); it
    does not fire while the two differ by at most 10 seconds; and when it
    fires they differ by more than 10 seconds. *)
Theorem C4_deadline_by_magnitude (start now : timespec) (elapsed back : Z) :
  (timed_out start now = true <-> 10 < Z.abs (tv_sec now - tv_sec start))
  /\ timed_out start now = timed_out now start
  /\ (well_formed start -> well_formed now ->
      elapsed_ns start now = elapsed - back ->
      (back + 11 * 10 ^ 9 <= elapsed -> timed_out start now = true)
      /\ (elapsed + 11 * 10 ^ 9 <= back -> timed_out start now = true)
      /\ (Z.abs (elapsed - back) <= 10 * 10 ^ 9 ->
          timed_out start now = false)
      /\ (timed_out start now = true ->
          10 * 10 ^ 9 < Z.abs (elapsed - back))).
Proof.
  assert (Hsym : timed_out start now = timed_out now start).
  { unfold timed_out.
    replace (tv_sec start - tv_sec now) with (- (tv_sec now - tv_sec start))
      by lia.
    rewrite Z.abs_opp. reflexivity. }
  split; [unfold timed_out; apply Z.ltb_lt|]. split; [exact Hsym|].
  unfold well_formed, elapsed_ns, timed_out.
  change (10 ^ 9) with 1000000000. intros Hs Hn He.
  repeat split; intros H;
    try (apply Z.ltb_lt); try (apply Z.ltb_ge); try (apply Z.ltb_lt in H);
    lia.
Qed.



(** The first scenario of the specification, end to end. *)
Example scenario_1 :
  main SATELLITE_SET_gps_h 5 "gpssnmp" OID_SNR_AVG (steady sky_5_4)
  = ([gps_open 0; gps_stream; clock_gettime (at_sec 100);
      gps_waiting true; gps_read 0; gps_close;
      stdout (".1.3.6.1.2.1.25.1.33 = gauge: 25.000000" ++ nl)], Exit 0).
Proof. vm_compute; reflexivity. Qed.

(** The second scenario of the specification: no satellite used. *)
Example scenario_2 :
  report "gpssnmp" OID_USED no_sky
  = ([gps_close; stdout (".1.3.6.1.2.1.25.1.32 = gauge: 0" ++ nl)], Exit 0)
  /\ report "gpssnmp" OID_SNR_AVG no_sky
     = ([gps_close; stdout (".1.3.6.1.2.1.25.1.33 = gauge: 0.000000" ++ nl)],
        Exit 0).
Proof. split; vm_compute; reflexivity. Qed.

Lemma C4_witness :
  timed_out {| tv_sec := 100; tv_nsec := 0 |}
    {| tv_sec := 111; tv_nsec := 900000000 |} = true.
Proof.
  apply (proj1 (proj2 (proj2 (C4_deadline_by_magnitude
                                {| tv_sec := 100; tv_nsec := 0 |}
                                {| tv_sec := 111; tv_nsec := 900000000 |}
                                31900000000 20000000000))
                  ltac:(split; [discriminate | reflexivity])
                  ltac:(split; [discriminate | reflexivity])
                  ltac:(reflexivity))).
  discriminate.
Defined.

(** The test reads whole seconds only.  Against the elapsed time in
    nanoseconds of a clock that runs forward, it fires whenever 11 seconds
    or more have passed, and only when more than 10 seconds have. *)
Lemma timed_out_wall_clock (start now : timespec) :
  0 <= tv_nsec start < 10 ^ 9 ->
  0 <= tv_nsec now < 10 ^ 9 ->
  let elapsed_ns :=
    (tv_sec now - tv_sec start) * 10 ^ 9 + (tv_nsec now - tv_nsec start) in
  (11 * 10 ^ 9 <= elapsed_ns -> timed_out start now = true)
  /\ (0 <= elapsed_ns -> timed_out start now = true ->
      10 * 10 ^ 9 < elapsed_ns).
Proof.
  intros Hs Hn elapsed_ns. subst elapsed_ns. unfold timed_out.
  change (10 ^ 9) with 1000000000 in *.
  rewrite Z.ltb_lt. split; intros; lia.
Qed.

(** C3 as stated fails between 10 and 11 seconds: in the run of
    [almost_eleven] every reading is taken 10.999999999 seconds after the
    start, gpsd is always ready and never sends a sky view, and the program
    is still polling after any number of turns. *)
Lemma C3_still_polling_after_ten_seconds :
  (forall k,
      10 * 10 ^ 9
      < elapsed_ns (ts_start almost_eleven) (ts_now (polls almost_eleven k)))
  /\ (forall k,
         ready (polls almost_eleven k) = true
         /\ status (polls almost_eleven k) <> -1
         /\ Z.land SATELLITE_SET_gps_h (set (data (polls almost_eleven k))) = 0)
  /\ forall fuel,
      result (main SATELLITE_SET_gps_h fuel "gpssnmp" OID_USED almost_eleven)
      = Polling.
Proof.
  split; [intros k; reflexivity|].
  split; [intros k; repeat split; discriminate|].
  intros fuel.
  rewrite main_polls by (discriminate || reflexivity). cbv zeta.
  pose proof (poll_loop_rounds SATELLITE_SET_gps_h almost_eleven fuel 0 0
                (opened almost_eleven) (fun i _ => eq_refl)) as Hpoll.
  rewrite Nat.add_0_r in Hpoll. cbn [Nat.add poll_loop] in Hpoll.
  rewrite Hpoll. reflexivity.
Qed.

(** C3, as the code has it: with a transport that is always ready and whose
    reads all succeed without a sky view, and clock readings in seconds and
    nanoseconds, the run ends with the timeout message and exit code 1 no
    later than the first turn read 11 seconds or more after the start.  It
    ends at the first turn whose whole seconds differ from the start's by
    more than 10, for every amount of fuel that reaches that turn; on a
    reading not before the start that is a turn read more than 10 seconds
    after it. *)
Theorem C3_times_out_by_eleven_seconds
  (SATELLITE_SET : Z) (argv0 oid : string) (w : world) (n : nat) :
  oid <> ""%string ->
  open_status w = 0 ->
  (forall k, ready (polls w k) = true
             /\ status (polls w k) <> -1
             /\ Z.land SATELLITE_SET (set (data (polls w k))) = 0) ->
  well_formed (ts_start w) ->
  (forall k, well_formed (ts_now (polls w k))) ->
  11 * 10 ^ 9 <= elapsed_ns (ts_start w) (ts_now (polls w n)) ->
  exists k,
    (k <= n)%nat
    /\ 10 < Z.abs (tv_sec (ts_now (polls w k)) - tv_sec (ts_start w))
    /\ (forall j, (j < k)%nat ->
                  Z.abs (tv_sec (ts_now (polls w j)) - tv_sec (ts_start w))
                  <= 10)
    /\ (0 <= elapsed_ns (ts_start w) (ts_now (polls w k)) ->
        10 * 10 ^ 9 < elapsed_ns (ts_start w) (ts_now (polls w k)))
    /\ forall fuel, (k < fuel)%nat ->
         main SATELLITE_SET fuel argv0 oid w
         = (prologue w ++ rounds w 0 k
            ++ [gps_waiting true; gps_read (status (polls w k));
                clock_gettime (ts_now (polls w k)); stderr timeout_msg],
            Exit 1).
Proof.
  intros Hoid Hopen Hall Hstart Hnow Hlate.
  destruct (timed_out_wall_clock (ts_start w) (ts_now (polls w n))
              Hstart (Hnow n)) as [Hfire _].
  destruct (times_out_at_first_late_reading SATELLITE_SET argv0 oid w n
              Hoid Hopen Hall (Hfire Hlate)) as (k & Hk & Hpk & Hmin & Hrun).
  destruct (timed_out_wall_clock (ts_start w) (ts_now (polls w k))
              Hstart (Hnow k)) as [_ Honly].
  exists k. split; [exact Hk|]. split.
  { unfold timed_out in Hpk. apply Z.ltb_lt in Hpk. exact Hpk. }
  split.
  { intros j Hj. specialize (Hmin j Hj). unfold timed_out in Hmin.
    apply Z.ltb_ge in Hmin. exact Hmin. }
  split; [|exact Hrun].
  intros Hforward. exact (Honly Hforward Hpk).
Qed.

Lemma C3_witness :
  exists k,
    (k <= 3)%nat
    /\ 10 < Z.abs (tv_sec (ts_now (polls eleven_at_3 k))
                   - tv_sec (ts_start eleven_at_3))
    /\ (forall j, (j < k)%nat ->
                  Z.abs (tv_sec (ts_now (polls eleven_at_3 j))
                         - tv_sec (ts_start eleven_at_3)) <= 10)
    /\ (0 <= elapsed_ns (ts_start eleven_at_3) (ts_now (polls eleven_at_3 k)) ->
        10 * 10 ^ 9
        < elapsed_ns (ts_start eleven_at_3) (ts_now (polls eleven_at_3 k)))
    /\ forall fuel, (k < fuel)%nat ->
         main SATELLITE_SET_gps_h fuel "gpssnmp" OID_USED eleven_at_3
         = (prologue eleven_at_3 ++ rounds eleven_at_3 0 k
            ++ [gps_waiting true;
                gps_read (status (polls eleven_at_3 k));
                clock_gettime (ts_now (polls eleven_at_3 k));
                stderr timeout_msg],
            Exit 1).
Proof.
  apply (C3_times_out_by_eleven_seconds SATELLITE_SET_gps_h "gpssnmp"
           OID_USED eleven_at_3 3).
  - discriminate.
  - reflexivity.
  - intros k. repeat split. discriminate.
  - split; [discriminate | reflexivity].
  - intros k. unfold well_formed, eleven_at_3. cbn [polls ts_now].
    destruct (k <? 3)%nat; split; (discriminate || reflexivity).
  - discriminate.
Defined.

(** * Further properties of the sum and the average *)

Module AggregatorBounds.

Lemma sum_prefix_none :
  forall n l acc,
    sum_prefix n l acc = None <-> (List.length l < n)%nat.
Proof.
  induction n as [|n IH]; intros [|s l] acc; cbn [sum_prefix List.length].
  - split; [discriminate|lia].
  - split; [discriminate|lia].
  - split; [lia|reflexivity].
  - rewrite IH. lia.
Qed.

Lemma filter_firstn_agree {A : Type} (q : A -> bool) :
  forall (l : list A) (a b : nat),
    (forall i x, nth_error l i = Some x ->
                 ((i < a)%nat <-> (i < b)%nat) \/ q x = false) ->
    filter q (firstn a l) = filter q (firstn b l).
Proof.
  induction l as [|x l IH]; intros a b H.
  - rewrite !firstn_nil. reflexivity.
  - assert (Htl : forall i y, nth_error l i = Some y ->
                    ((S i < a)%nat <-> (S i < b)%nat) \/ q y = false)
      by (intros i y Hy; exact (H (S i) y Hy)).
    destruct a as [|a], b as [|b]; cbn [firstn filter].
    + reflexivity.
    + destruct (H 0%nat x eq_refl) as [H0|Hq]; [lia|]. rewrite Hq.
      rewrite <- (IH 0%nat b); [reflexivity|]. intros i y Hy.
      destruct (Htl i y Hy) as [Hi|Hq']; [left; lia|right; exact Hq'].
    + destruct (H 0%nat x eq_refl) as [H0|Hq]; [lia|]. rewrite Hq.
      rewrite (IH a 0%nat); [reflexivity|]. intros i y Hy.
      destruct (Htl i y Hy) as [Hi|Hq']; [left; lia|right; exact Hq'].
    + rewrite (IH a b); [reflexivity|]. intros i y Hy.
      destruct (Htl i y Hy) as [Hi|Hq']; [left; lia|right; exact Hq'].
Qed.

End AggregatorBounds.

(** X5: the loop reads past the end of [skyview] exactly when
    satellitesUsed is at least the number of entries of the array (so also
    when every entry holds a used satellite); the program then has no
    defined behaviour from the loop on, before [gps_close] and any output. *)
Theorem X5_read_past_skyview (argv0 oid : string) (g : gps_data_t) :
  (aggregate g = None
   <-> Z.of_nat (List.length (skyview g)) <= satellites_used g)
  /\ (Z.of_nat (List.length (skyview g)) <= satellites_used g ->
      report argv0 oid g = ([], Undefined)).
Proof.
  assert (Hnone : aggregate g = None
                  <-> Z.of_nat (List.length (skyview g)) <= satellites_used g).
  { unfold aggregate. rewrite Aggregator.snr_sum_sum_prefix.
    pose proof (AggregatorBounds.sum_prefix_none
                  (Z.to_nat (satellites_used g + 1)) (skyview g)
                  (Double.of_int 0)) as Hsum.
    destruct (sum_prefix _ _ _) as [total|].
    - split; [discriminate|]. intros Hle.
      assert (Some total = None) by (apply Hsum; lia). discriminate.
    - split; [|reflexivity]. intros _.
      assert (List.length (skyview g) < Z.to_nat (satellites_used g + 1))%nat
        by (apply Hsum; reflexivity).
      lia. }
  split; [exact Hnone|].
  intros Hle. rewrite report_aggregate.
  rewrite (proj2 Hnone Hle). reflexivity.
Qed.

Lemma X5_witness :
  aggregate sky_full = None
  /\ report "gpssnmp" OID_USED sky_full = ([], Undefined).
Proof.
  split.
  - apply (proj1 (X5_read_past_skyview "gpssnmp" OID_USED sky_full)).
    cbn. lia.
  - apply (proj2 (X5_read_past_skyview "gpssnmp" OID_USED sky_full)).
    cbn. lia.
Defined.

(** X6: whatever the records hold (NaN, negative or infinite signal
    strengths included), the average is [+0.0], a positive finite number or
    [+inf]: never a NaN and never negative.  satellitesUsed is taken in the
    range of a C [int]. *)
Theorem X6_average_not_nan_not_negative (g : gps_data_t) (l : locals) :
  satellites_used g < 2 ^ 31 ->
  aggregate g = Some l ->
  Double.nonneg (snr_avg l) = true.
Proof. apply Aggregator.snr_avg_nonneg. Qed.

Lemma X6_witness :
  Double.nonneg
    (snr_avg {| used := 2; visible := 3; snr_avg := S754_infinity false |})
  = true.
Proof.
  apply (X6_average_not_nan_not_negative sky_huge
           {| used := 2; visible := 3; snr_avg := S754_infinity false |}).
  - reflexivity.
  - vm_compute. reflexivity.
Defined.

(** X7: the program's average is the specification's whenever the sum stays
    inside the array and every position that lies in only one of the two
    ranges, the loop's [0 .. satellitesUsed] and the report's
    [0 .. satellitesVisible - 1], holds a record that does not count. *)
Theorem X7_average_meets_specification (g : gps_data_t) :
  satellites_used g < Z.of_nat (List.length (skyview g)) ->
  (forall i sat,
      nth_error (skyview g) i = Some sat ->
      (Z.of_nat i < satellites_visible g <-> Z.of_nat i <= satellites_used g)
      \/ qualifies sat = false) ->
  exists l, aggregate g = Some l /\ snr_avg l = spec_averageSnr g.
Proof.
  intros Hbound Hranges. apply Aggregator.aggregate_meets_spec; [lia|].
  unfold report_records. apply AggregatorBounds.filter_firstn_agree.
  intros i sat Hsat. destruct (Hranges i sat Hsat) as [Hi|Hq];
    [left; lia|right; exact Hq].
Qed.

Lemma X7_witness :
  exists l, aggregate sky_5_4 = Some l /\ snr_avg l = spec_averageSnr sky_5_4.
Proof.
  apply (X7_average_meets_specification sky_5_4).
  - cbn. lia.
  - intros i sat _. left. cbn. lia.
Defined.

(** * Further properties of the poll loop and of [main] *)

Section MoreLoop.

Variable SATELLITE_SET : Z.

(** X1: when a read brings a sky view, the wait is over: [main] leaves the
    loop without looking at the clock (so also when the deadline has passed
    in the meantime), sums that session structure, closes, prints the gauge
    and exits with code 0. *)
Theorem X1_sky_view_ends_the_wait
  (argv0 oid : string) (w : world) (k fuel : nat) (l : locals) (v : string) :
  open_status w = 0 ->
  (forall j, (j < k)%nat -> goes_round SATELLITE_SET w j = true) ->
  ready (polls w k) = true ->
  status (polls w k) <> -1 ->
  Z.land SATELLITE_SET (set (data (polls w k))) <> 0 ->
  aggregate (data (polls w k)) = Some l ->
  gauge_value oid l = Some v ->
  (k < fuel)%nat ->
  main SATELLITE_SET fuel argv0 oid w
  = (prologue w ++ rounds w 0 k
     ++ [gps_waiting true; gps_read (status (polls w k)); gps_close;
         stdout (oid ++ " = gauge: " ++ v ++ nl)],
     Exit 0).
Proof.
  intros Hopen Hround Hready Hstatus Hsky Hagg Hv Hfuel.
  replace fuel with (k + S (fuel - k - 1))%nat by lia.
  rewrite main_after_rounds;
    [|exact (gauge_value_nonempty oid l v Hv)|assumption|assumption].
  rewrite poll_loop_S. cbv zeta.
  apply Z.eqb_neq in Hstatus, Hsky. rewrite Hready, Hstatus, Hsky.
  cbn [result snd trace fst].
  rewrite report_aggregate, Hagg, (Resolver.resolve_known argv0 oid l v Hv).
  reflexivity.
Qed.

(** X2: the loop has no bound of its own.  As long as gpsd is ready, the
    reads succeed without a sky view and the clock readings stay within 10
    seconds of the start, the program keeps polling: after any number of
    turns it has neither exited nor left the loop. *)
Theorem X2_polls_on_while_the_clock_stands
  (argv0 oid : string) (w : world) (fuel : nat) :
  oid <> ""%string ->
  open_status w = 0 ->
  (forall k, goes_round SATELLITE_SET w k = true) ->
  main SATELLITE_SET fuel argv0 oid w
  = (prologue w ++ rounds w 0 fuel, Polling).
Proof.
  intros Hoid Hopen Hround.
  rewrite main_polls by assumption. cbv zeta.
  pose proof (poll_loop_rounds SATELLITE_SET w fuel 0 0 (opened w)
                (fun i _ => Hround i)) as Hpoll.
  rewrite Nat.add_0_r in Hpoll. cbn [Nat.add poll_loop] in Hpoll.
  rewrite Hpoll, !trace_pair. cbn [result snd fst].
  rewrite app_nil_r. reflexivity.
Qed.

Lemma on_stderr_app (a b : list event) :
  on_stderr (a ++ b) = on_stderr a ++ on_stderr b.
Proof.
  induction a as [|e a IH]; [reflexivity|].
  destruct e; cbn [app on_stderr]; rewrite IH; reflexivity.
Qed.

(** The loop writes on stderr only when it exits, and then one of its two
    messages. *)
Lemma poll_loop_stderr (w : world) :
  forall (fuel j : nat) (g : gps_data_t),
    match result (poll_loop SATELLITE_SET fuel w j g) with
    | Exit _ =>
        on_stderr (trace (poll_loop SATELLITE_SET fuel w j g)) = [timeout_msg]
        \/ on_stderr (trace (poll_loop SATELLITE_SET fuel w j g))
           = [read_failed_msg]
    | Val _ | Polling | Undefined =>
        on_stderr (trace (poll_loop SATELLITE_SET fuel w j g)) = []
    end.
Proof.
  induction fuel as [|fuel IH]; intros j g; [reflexivity|].
  rewrite poll_loop_S. cbv zeta.
  destruct (ready (polls w j)); [|reflexivity].
  destruct (status (polls w j) =? -1); [right; reflexivity|].
  destruct (Z.land SATELLITE_SET (set (data (polls w j))) =? 0);
    [|reflexivity].
  destruct (timed_out (ts_start w) (ts_now (polls w j))); [left; reflexivity|].
  specialize (IH (S j) (data (polls w j))).
  rewrite trace_pair. cbn [result snd app on_stderr].
  exact IH.
Qed.

(** X3: a run of [main] that ends, ends in one of three ways.  With code 0,
    nothing on stderr and the one gauge line on stdout; with code 1 and
    nothing on stdout, after one message on stderr (connection failed, read
    failed, timeout); or with code 1 and the usage text on stdout, after
    one message on stderr (missing option, unknown OID). *)
Theorem X3_exit_code_and_output
  (fuel : nat) (argv0 oid : string) (w : world) (code : Z) :
  result (main SATELLITE_SET fuel argv0 oid w) = Exit code ->
  exists out err,
    on_stdout (trace (main SATELLITE_SET fuel argv0 oid w)) = out
    /\ on_stderr (trace (main SATELLITE_SET fuel argv0 oid w)) = err
    /\ ((code = 0 /\ err = []
         /\ exists v, out = [(oid ++ " = gauge: " ++ v ++ nl)%string])
        \/ (code = 1 /\ out = []
            /\ (err = [("gpssnmp: ERROR: connection failed: "
                        ++ printf_d (open_status w) ++ nl)%string]
                \/ err = [read_failed_msg] \/ err = [timeout_msg]))
        \/ (code = 1 /\ out = [usage_text argv0]
            /\ (err = [(argv0 ++ ": ERROR: Missing option" ++ nl ++ nl)%string]
                \/ err = [(argv0 ++ ": ERROR: Unknown OID " ++ oid
                           ++ nl ++ nl)%string]))).
Proof.
  intros Hexit. do 2 eexists. split; [reflexivity|]. split; [reflexivity|].
  destruct (String.eqb_spec oid "") as [->|Hoid].
  { rewrite main_missing_option in *. injection Hexit as <-.
    right; right. repeat split. left; reflexivity. }
  destruct (Z.eq_dec (open_status w) 0) as [Hopen|Hopen].
  2:{ rewrite main_connection_failed in * by assumption.
      injection Hexit as <-. right; left. repeat split. left; reflexivity. }
  rewrite main_polls in * by assumption. cbv zeta in *.
  destruct (poll_loop_quiet SATELLITE_SET w fuel 0 (opened w))
    as (Hout & _ & Hloop).
  pose proof (poll_loop_stderr w fuel 0 (opened w)) as Herr.
  destruct (result (poll_loop SATELLITE_SET fuel w 0 (opened w)))
    as [g|c| |]; try discriminate.
  - rewrite report_aggregate in *.
    destruct (aggregate g) as [l|]; [|discriminate].
    destruct (gauge_value oid l) as [v|] eqn:Hv.
    + rewrite (Resolver.resolve_known argv0 oid l v Hv) in *.
      injection Hexit as <-. left.
      rewrite !trace_pair, !on_stdout_app, !on_stderr_app, Hout, Herr.
      repeat split. exists v. reflexivity.
    + rewrite (Resolver.resolve_unknown argv0 oid l Hv) in *.
      injection Hexit as <-. right; right.
      rewrite !trace_pair, !on_stdout_app, !on_stderr_app, Hout, Herr.
      repeat split. right; reflexivity.
  - destruct Hloop as [-> _]. injection Hexit as <-. right; left.
    rewrite !trace_pair, !on_stdout_app, !on_stderr_app, Hout.
    repeat split. right. destruct Herr as [-> | ->]; [right|left]; reflexivity.
Qed.

Lemma follow_app (a b : list event) :
  forall s,
    follow s (a ++ b)
    = match follow s a with
      | Some s' => follow s' b
      | None => None
      end.
Proof.
  induction a as [|e a IH]; intros s; [reflexivity|].
  cbn [app follow]. destruct (next s e); [apply IH|reflexivity].
Qed.

Lemma follow_resolve (argv0 oid : string) (l : locals) (s : session_state) :
  follow s (trace (resolve xlate argv0 oid l)) = Some s.
Proof.
  rewrite Resolver.resolve_xlate.
  destruct (OID_VISIBLE =? oid)%string;
    [|destruct (OID_USED =? oid)%string;
      [|destruct (OID_SNR_AVG =? oid)%string]];
    rewrite trace_pair; destruct s; reflexivity.
Qed.

(** The loop keeps to the order wait, read, and leaves it after a read or
    after a wait that found nothing. *)
Lemma follow_poll_loop (w : world) :
  forall (fuel j : nat) (g : gps_data_t) (s : session_state),
    s = streaming \/ s = read_done ->
    exists s',
      follow s (trace (poll_loop SATELLITE_SET fuel w j g)) = Some s'
      /\ (forall g', result (poll_loop SATELLITE_SET fuel w j g) = Val g' ->
                     s' = read_done \/ s' = nothing_ready).
Proof.
  induction fuel as [|fuel IH]; intros j g s Hs.
  - exists s. split; [reflexivity|discriminate].
  - rewrite poll_loop_S. cbv zeta.
    destruct (ready (polls w j)).
    2:{ exists nothing_ready. split; [destruct Hs as [-> | ->]; reflexivity|].
        intros; right; reflexivity. }
    destruct (status (polls w j) =? -1).
    { exists read_done. split; [destruct Hs as [-> | ->]; reflexivity|].
      discriminate. }
    destruct (Z.land SATELLITE_SET (set (data (polls w j))) =? 0).
    2:{ exists read_done. split; [destruct Hs as [-> | ->]; reflexivity|].
        intros; left; reflexivity. }
    destruct (timed_out (ts_start w) (ts_now (polls w j))).
    { exists read_done. split; [destruct Hs as [-> | ->]; reflexivity|].
      discriminate. }
    destruct (IH (S j) (data (polls w j)) read_done (or_intror eq_refl))
      as (s' & Hfollow & Hval).
    exists s'. rewrite trace_pair. cbn [result snd]. split; [|exact Hval].
    rewrite follow_app.
    destruct Hs as [-> | ->]; exact Hfollow.
Qed.

(** X4: in every run of [main], ended or not, the libgps calls come in
    order: [gps_open] first and [gps_stream] after a successful open only,
    each [gps_read] right after a [gps_waiting] that returned true,
    [gps_close] only after a read or after a [gps_waiting] that returned
    false, and no call after [gps_close] or after a failed open.  A run that
    exits with code 0 has closed its session. *)
Theorem X4_libgps_calls_in_order
  (fuel : nat) (argv0 oid : string) (w : world) :
  exists s,
    follow not_open (trace (main SATELLITE_SET fuel argv0 oid w)) = Some s
    /\ (result (main SATELLITE_SET fuel argv0 oid w) = Exit 0 -> s = closed).
Proof.
  destruct (String.eqb_spec oid "") as [->|Hoid].
  { rewrite main_missing_option. exists not_open.
    split; [reflexivity|discriminate]. }
  destruct (Z.eq_dec (open_status w) 0) as [Hopen|Hopen].
  2:{ rewrite main_connection_failed by assumption. exists refused.
      split; [|discriminate].
      rewrite trace_pair. cbn [follow next].
      apply Z.eqb_neq in Hopen. rewrite Hopen. reflexivity. }
  rewrite main_polls by assumption. cbv zeta.
  destruct (follow_poll_loop w fuel 0 (opened w) streaming (or_introl eq_refl))
    as (s' & Hfollow & Hval).
  destruct (poll_loop_quiet SATELLITE_SET w fuel 0 (opened w))
    as (_ & _ & Hloop).
  assert (Hpro : forall t,
             follow not_open
               (prologue w ++ trace (poll_loop SATELLITE_SET fuel w 0 (opened w))
                ++ t) = follow s' t).
  { intros t. rewrite app_assoc, follow_app, follow_app.
    cbn [prologue follow next Z.eqb]. rewrite Hfollow. reflexivity. }
  destruct (result (poll_loop SATELLITE_SET fuel w 0 (opened w)))
    as [g|c| |].
  - rewrite report_aggregate.
    destruct (aggregate g) as [l|]; rewrite !trace_pair, Hpro.
    + exists closed. split; [|reflexivity].
      destruct (Hval g eq_refl) as [-> | ->]; cbn [follow next];
        apply follow_resolve.
    + exists s'. split; [reflexivity|discriminate].
  - exists s'. rewrite trace_pair.
    rewrite <- (app_nil_r (trace (poll_loop SATELLITE_SET fuel w 0 (opened w)))).
    rewrite Hpro. split; [reflexivity|].
    destruct Hloop as [-> _]. discriminate.
  - destruct Hloop.
  - exists s'. rewrite trace_pair.
    rewrite <- (app_nil_r (trace (poll_loop SATELLITE_SET fuel w 0 (opened w)))).
    rewrite Hpro. split; [reflexivity|discriminate].
Qed.

Lemma poll_loop_ends_by (w : world) (n : nat) :
  timed_out (ts_start w) (ts_now (polls w n)) = true ->
  forall (fuel j : nat) (g : gps_data_t),
    (j <= n < j + fuel)%nat ->
    result (poll_loop SATELLITE_SET fuel w j g) <> Polling.
Proof.
  intros Hn. induction fuel as [|fuel IH]; intros j g Hj; [lia|].
  rewrite poll_loop_S. cbv zeta.
  destruct (ready (polls w j)); [|discriminate].
  destruct (status (polls w j) =? -1); [discriminate|].
  destruct (Z.land SATELLITE_SET (set (data (polls w j))) =? 0);
    [|discriminate].
  destruct (timed_out (ts_start w) (ts_now (polls w j))) eqn:Hclock;
    [discriminate|].
  cbn [result snd]. apply IH.
  destruct (Nat.eq_dec j n) as [->|]; [congruence|lia].
Qed.

(** X16: the deadline stops the loop whatever gpsd does.  If the clock
    reading of turn [n] lies 11 seconds or more from the start, to the
    nanosecond and in either direction, no run is still polling after turn
    [n]: it has exited or left the loop, at that turn or before. *)
Theorem X16_no_polling_past_the_deadline
  (argv0 oid : string) (w : world) (n fuel : nat) :
  well_formed (ts_start w) ->
  well_formed (ts_now (polls w n)) ->
  11 * 10 ^ 9 <= Z.abs (elapsed_ns (ts_start w) (ts_now (polls w n))) ->
  (n < fuel)%nat ->
  result (main SATELLITE_SET fuel argv0 oid w) <> Polling.
Proof.
  intros Hstart Hnow Hlate Hfuel.
  assert (Hn : timed_out (ts_start w) (ts_now (polls w n)) = true).
  { unfold well_formed, elapsed_ns in *. unfold timed_out.
    change (10 ^ 9) with 1000000000 in *. apply Z.ltb_lt. lia. }
  destruct (String.eqb_spec oid "") as [->|Hoid].
  { rewrite main_missing_option. discriminate. }
  destruct (Z.eq_dec (open_status w) 0) as [Hopen|Hopen].
  2:{ rewrite main_connection_failed by assumption. discriminate. }
  rewrite main_polls by assumption. cbv zeta.
  pose proof (poll_loop_ends_by w n Hn fuel 0 (opened w) ltac:(lia)) as Hpoll.
  destruct (result (poll_loop SATELLITE_SET fuel w 0 (opened w)))
    as [g|c| |]; try discriminate; [|contradiction].
  rewrite report_aggregate.
  destruct (aggregate g) as [l|]; [|discriminate].
  rewrite Resolver.resolve_xlate.
  destruct (OID_VISIBLE =? oid)%string;
    [|destruct (OID_USED =? oid)%string;
      [|destruct (OID_SNR_AVG =? oid)%string]]; discriminate.
Qed.

End MoreLoop.

(** * The deadline and the nanoseconds *)

(** X8: the deadline test reads the seconds of the two clock readings and
    not their nanoseconds.  For a clock that runs forward it fires whenever
    11 seconds or more have passed and only when more than 10 seconds have;
    for every elapsed time in between there are readings on which it fires
    and readings on which it does not. *)
Theorem X8_deadline_counts_whole_seconds (start now : timespec) :
  well_formed start ->
  well_formed now ->
  (11 * 10 ^ 9 <= elapsed_ns start now -> timed_out start now = true)
  /\ (0 <= elapsed_ns start now -> timed_out start now = true ->
      10 * 10 ^ 9 < elapsed_ns start now)
  /\ forall e,
      10 * 10 ^ 9 < e < 11 * 10 ^ 9 ->
      (exists t0 t1,
          well_formed t0 /\ well_formed t1 /\ elapsed_ns t0 t1 = e
          /\ timed_out t0 t1 = false)
      /\ (exists t0 t1,
             well_formed t0 /\ well_formed t1 /\ elapsed_ns t0 t1 = e
             /\ timed_out t0 t1 = true).
Proof.
  intros Hs Hn.
  destruct (timed_out_wall_clock start now Hs Hn) as [Hfire Honly].
  cbv zeta in Hfire, Honly.
  split; [exact Hfire|]. split; [exact Honly|].
  intros e He. split.
  - exists {| tv_sec := 0; tv_nsec := 0 |},
           {| tv_sec := 10; tv_nsec := e - 10 * 10 ^ 9 |}.
    unfold well_formed, elapsed_ns. cbn [tv_sec tv_nsec].
    change (10 ^ 9) with 1000000000 in *.
    repeat split; try reflexivity; lia.
  - exists {| tv_sec := 0; tv_nsec := 10 ^ 9 - 1 |},
           {| tv_sec := 11; tv_nsec := e - 10 * 10 ^ 9 - 1 |}.
    unfold well_formed, elapsed_ns. cbn [tv_sec tv_nsec].
    change (10 ^ 9) with 1000000000 in *.
    repeat split; try reflexivity; lia.
Qed.

(** * The options (lines 75-128) *)

Section MoreOptions.

Variables VERSION REVISION : string.
Variable SATELLITE_SET : Z.

Lemma goes_on_cases (o : getopt_t) :
  goes_on o = true ->
  diagnostic o = None
  /\ (ch o = "g"%char
      \/ (ch o = "D"%char /\ exists debug, atoi (optarg o) = Some debug)).
Proof.
  unfold goes_on, sets_oid, sets_debug. intros H.
  apply orb_prop in H as [H|H]; apply andb_prop in H as [Hch H];
    apply Ascii.eqb_eq in Hch.
  - destruct (diagnostic o); [discriminate|]. auto.
  - destruct (atoi (optarg o)) as [debug|]; [|discriminate].
    destruct (diagnostic o); [discriminate|]. eauto.
Qed.

Lemma debug_calls_cons (o : getopt_t) (opts : list getopt_t) :
  debug_calls (o :: opts)
  = (if (ch o =? "D")%char
     then match atoi (optarg o) with
          | Some debug => [gps_enable_debug debug]
          | None => []
          end
     else []) ++ debug_calls opts.
Proof. reflexivity. Qed.

Lemma options_cons (argv0 : string) (o : getopt_t) (rest : list getopt_t)
  (oid : string) :
  diagnostic o = None ->
  (ch o = "g"%char ->
   options VERSION REVISION argv0 (o :: rest) oid
   = options VERSION REVISION argv0 rest (strlcpy_oid (optarg o)))
  /\ (forall debug,
         ch o = "D"%char -> atoi (optarg o) = Some debug ->
         options VERSION REVISION argv0 (o :: rest) oid
         = (gps_enable_debug debug
            :: fst (options VERSION REVISION argv0 rest oid),
            snd (options VERSION REVISION argv0 rest oid))).
Proof.
  intros Hd. split.
  - intros Hch. cbn [options]. unfold getopt_wrote. rewrite Hd, Hch.
    cbn [Ascii.eqb Bool.eqb andb orb app].
    destruct (options VERSION REVISION argv0 rest (strlcpy_oid (optarg o)));
      reflexivity.
  - intros debug Hch Hatoi. cbn [options]. unfold getopt_wrote.
    rewrite Hd, Hch, Hatoi. reflexivity.
Qed.

(** A run of [-g] and [-D] options goes through the loop. *)
Lemma options_go_on (argv0 : string) :
  forall (opts : list getopt_t) (oid : string),
    forallb goes_on opts = true ->
    options VERSION REVISION argv0 opts oid
    = (debug_calls opts, Val (requested opts oid)).
Proof.
  induction opts as [|o opts IH]; intros oid Hopts; [reflexivity|].
  cbn [forallb] in Hopts. apply andb_prop in Hopts as [Ho Hopts].
  destruct (goes_on_cases o Ho) as [Hd [Hch|[Hch [debug Hatoi]]]];
    destruct (options_cons argv0 o opts oid Hd) as [Hg HD].
  - rewrite (Hg Hch), IH by exact Hopts.
    rewrite debug_calls_cons. unfold requested. cbn [fold_left].
    rewrite Hch. reflexivity.
  - rewrite (HD debug Hch Hatoi), IH by exact Hopts.
    rewrite debug_calls_cons. unfold requested. cbn [fold_left].
    rewrite Hch, Hatoi. reflexivity.
Qed.

(** The first option that is neither [-g] nor [-D] ends the program. *)
Lemma options_stop (argv0 : string) (o : getopt_t) (post : list getopt_t) :
  ch o <> "g"%char ->
  ch o <> "D"%char ->
  forall (pre : list getopt_t) (oid : string),
    forallb goes_on pre = true ->
    options VERSION REVISION argv0 (pre ++ o :: post) oid
    = (debug_calls pre ++ getopt_wrote o
       ++ [core (if (ch o =? "V")%char
                 then stderr (argv0 ++ ": " ++ VERSION ++ " (revision "
                              ++ REVISION ++ ")" ++ nl)
                 else stdout (usage_text argv0))],
       Exit 0).
Proof.
  intros Hg HD. apply Ascii.eqb_neq in Hg, HD.
  induction pre as [|p pre IH]; intros oid Hpre.
  - cbn [app options debug_calls flat_map]. rewrite Hg, HD.
    destruct ((ch o =? "?")%char || (ch o =? "h")%char) eqn:Hh.
    + apply orb_prop in Hh as [Hh|Hh]; apply Ascii.eqb_eq in Hh;
        rewrite Hh; reflexivity.
    + destruct (ch o =? "V")%char; reflexivity.
  - cbn [forallb] in Hpre. apply andb_prop in Hpre as [Hp Hpre].
    change ((p :: pre) ++ o :: post) with (p :: (pre ++ o :: post)).
    destruct (goes_on_cases p Hp) as [Hd [Hch|[Hch [debug Hatoi]]]];
      destruct (options_cons argv0 p (pre ++ o :: post) oid Hd) as [Hg' HD'].
    + rewrite (Hg' Hch), IH by exact Hpre.
      rewrite debug_calls_cons, Hch. reflexivity.
    + rewrite (HD' debug Hch Hatoi), IH by exact Hpre.
      rewrite debug_calls_cons, Hch, Hatoi. reflexivity.
Qed.

Lemma only_debug_goes_on (opts : list getopt_t) :
  forallb sets_debug opts = true -> forallb goes_on opts = true.
Proof.
  induction opts as [|o opts IH]; [reflexivity|]. cbn [forallb].
  intros H. apply andb_prop in H as [Ho H]. unfold goes_on at 1.
  rewrite Ho, orb_true_r. exact (IH H).
Qed.

Lemma only_debug_requested (opts : list getopt_t) (oid : string) :
  forallb sets_debug opts = true -> requested opts oid = oid.
Proof.
  revert oid. induction opts as [|o opts IH]; intros oid; [reflexivity|].
  cbn [forallb]. intros H. apply andb_prop in H as [Ho H].
  unfold sets_debug in Ho. apply andb_prop in Ho as [Ho _].
  unfold requested. cbn [fold_left]. apply Ascii.eqb_eq in Ho. rewrite Ho.
  cbn [Ascii.eqb Bool.eqb andb]. exact (IH oid H).
Qed.

(** X9: [-h], or the [?] that [getopt] answers for an option it does not
    know, ends the program as soon as it is met: after the diagnostic that
    [getopt] itself wrote on stderr, if any, the usage text on stdout and
    exit code 0 (also for the unknown option), whatever options follow,
    whatever [-g] came before, and without any call to gpsd. *)
Theorem X9_help_ends_the_program
  (fuel : nat) (argv0 : string) (pre : list getopt_t) (o : getopt_t)
  (post : list getopt_t) (w : world) :
  forallb goes_on pre = true ->
  ch o <> "g"%char ->
  ch o <> "D"%char ->
  ch o <> "V"%char ->
  gpssnmp VERSION REVISION SATELLITE_SET fuel argv0 (pre ++ o :: post) w
  = (debug_calls pre ++ getopt_wrote o ++ [core (stdout (usage_text argv0))],
     Exit 0).
Proof.
  intros Hpre Hg HD HV. unfold gpssnmp. cbv zeta.
  rewrite (options_stop argv0 o post Hg HD pre EmptyString Hpre).
  apply Ascii.eqb_neq in HV. rewrite HV. reflexivity.
Qed.

(** X10: [-V] ends the program as soon as it is met: one line on stderr
    with the program's name, version and revision, exit code 0, nothing on
    stdout and no call to gpsd. *)
Theorem X10_version_ends_the_program
  (fuel : nat) (argv0 : string) (pre : list getopt_t) (o : getopt_t)
  (post : list getopt_t) (w : world) :
  forallb goes_on pre = true ->
  ch o = "V"%char ->
  diagnostic o = None ->
  gpssnmp VERSION REVISION SATELLITE_SET fuel argv0 (pre ++ o :: post) w
  = (debug_calls pre
     ++ [core (stderr (argv0 ++ ": " ++ VERSION ++ " (revision " ++ REVISION
                       ++ ")" ++ nl))],
     Exit 0).
Proof.
  intros Hpre HV Hd. unfold gpssnmp. cbv zeta.
  rewrite (options_stop argv0 o post) by (assumption
    || (rewrite HV; discriminate)).
  unfold getopt_wrote. rewrite HV, Hd. reflexivity.
Qed.

(** With [-g] and [-D] options only, the program is [main] run on the
    buffer they leave, after the debug calls. *)
Lemma gpssnmp_goes_on
  (fuel : nat) (argv0 : string) (opts : list getopt_t) (w : world) :
  forallb goes_on opts = true ->
  gpssnmp VERSION REVISION SATELLITE_SET fuel argv0 opts w
  = (debug_calls opts
     ++ map core
          (trace (main SATELLITE_SET fuel argv0 (requested opts EmptyString) w)),
     result (main SATELLITE_SET fuel argv0 (requested opts EmptyString) w)).
Proof.
  intros Hopts. unfold gpssnmp. cbv zeta.
  rewrite options_go_on by exact Hopts. reflexivity.
Qed.

Lemma last_oid_option (pre post : list getopt_t) (arg : string) :
  forallb goes_on pre = true ->
  forallb sets_debug post = true ->
  forallb goes_on (pre ++ opt "g" arg :: post) = true
  /\ requested (pre ++ opt "g" arg :: post) EmptyString = strlcpy_oid arg
  /\ debug_calls (pre ++ opt "g" arg :: post)
     = debug_calls pre ++ debug_calls post.
Proof.
  intros Hpre Hpost. repeat split.
  - rewrite forallb_app. cbn [forallb]. rewrite Hpre.
    rewrite (only_debug_goes_on post Hpost). reflexivity.
  - unfold requested. rewrite fold_left_app. cbn [fold_left opt ch optarg].
    cbn [Ascii.eqb Bool.eqb andb].
    apply (only_debug_requested post _ Hpost).
  - unfold debug_calls. rewrite flat_map_app. reflexivity.
Qed.

(** X11: with [-g] and [-D] options only, each [-D] with an argument in the
    range of [int], the program is [main] run on the first 29 characters of
    the argument of the last [-g]; an earlier [-g] is overridden, and each
    [-D] adds a call of [gps_enable_debug] with [atoi] of its argument,
    before anything else. *)
Theorem X11_last_oid_option_is_looked_up
  (fuel : nat) (argv0 : string) (pre post : list getopt_t) (arg : string)
  (w : world) :
  forallb goes_on pre = true ->
  forallb sets_debug post = true ->
  gpssnmp VERSION REVISION SATELLITE_SET fuel argv0
    (pre ++ opt "g" arg :: post) w
  = (debug_calls pre ++ debug_calls post
     ++ map core (trace (main SATELLITE_SET fuel argv0 (strlcpy_oid arg) w)),
     result (main SATELLITE_SET fuel argv0 (strlcpy_oid arg) w)).
Proof.
  intros Hpre Hpost.
  destruct (last_oid_option pre post arg Hpre Hpost) as (Hall & Hoid & Hdebug).
  rewrite gpssnmp_goes_on by exact Hall.
  rewrite Hoid, Hdebug, <- app_assoc. reflexivity.
Qed.

(** X15: an empty argument of the last [-g] is not told from no [-g] at
    all: the program writes the missing-option message, not the unknown-OID
    one, prints the usage text and exits with code 1 before it opens a
    session. *)
Theorem X15_empty_oid_argument_counts_as_missing
  (fuel : nat) (argv0 : string) (pre post : list getopt_t) (w : world) :
  forallb goes_on pre = true ->
  forallb sets_debug post = true ->
  gpssnmp VERSION REVISION SATELLITE_SET fuel argv0
    (pre ++ opt "g" EmptyString :: post) w
  = (debug_calls pre ++ debug_calls post
     ++ [core (stderr (argv0 ++ ": ERROR: Missing option" ++ nl ++ nl));
         core (stdout (usage_text argv0))],
     Exit 1).
Proof.
  intros Hpre Hpost.
  destruct (last_oid_option pre post EmptyString Hpre Hpost)
    as (Hall & Hoid & Hdebug).
  rewrite gpssnmp_goes_on by exact Hall.
  rewrite Hoid, Hdebug, <- app_assoc.
  change (strlcpy_oid EmptyString) with EmptyString.
  rewrite main_missing_option. reflexivity.
Qed.

(** X14: without a [-g] option the program stops before it opens a session:
    after the debug calls of its [-D] options (arguments in the range of
    [int]) it writes the missing-option message on stderr and the usage
    text on stdout, and exits with code 1. *)
Theorem X14_no_oid_option_no_session
  (fuel : nat) (argv0 : string) (opts : list getopt_t) (w : world) :
  forallb sets_debug opts = true ->
  gpssnmp VERSION REVISION SATELLITE_SET fuel argv0 opts w
  = (debug_calls opts
     ++ [core (stderr (argv0 ++ ": ERROR: Missing option" ++ nl ++ nl));
         core (stdout (usage_text argv0))],
     Exit 1).
Proof.
  intros Hopts.
  rewrite gpssnmp_goes_on by (apply only_debug_goes_on, Hopts).
  rewrite (only_debug_requested opts _ Hopts).
  rewrite main_missing_option. reflexivity.
Qed.

(** A [-D] whose argument is out of the range of [int] leaves the program
    without defined behaviour at that point. *)
Lemma debug_out_of_range
  (fuel : nat) (argv0 : string) (pre : list getopt_t) (o : getopt_t)
  (post : list getopt_t) (w : world) :
  forallb goes_on pre = true ->
  ch o = "D"%char ->
  atoi (optarg o) = None ->
  snd (gpssnmp VERSION REVISION SATELLITE_SET fuel argv0
         (pre ++ o :: post) w) = Undefined.
Proof.
  intros Hpre Hch Hatoi. unfold gpssnmp. cbv zeta.
  assert (Hopts : forall oid,
             snd (options VERSION REVISION argv0 (pre ++ o :: post) oid)
             = Undefined).
  { induction pre as [|p pre IH]; intros oid.
    - cbn [app options]. rewrite Hch, Hatoi. reflexivity.
    - cbn [forallb] in Hpre. apply andb_prop in Hpre as [Hp Hpre].
      change ((p :: pre) ++ o :: post) with (p :: (pre ++ o :: post)).
      destruct (goes_on_cases p Hp) as [Hd [Hg|[HD [debug Hdebug]]]];
        destruct (options_cons argv0 p (pre ++ o :: post) oid Hd) as [Hg' HD'].
      + rewrite (Hg' Hg). apply IH, Hpre.
      + rewrite (HD' debug HD Hdebug). cbn [snd]. apply IH, Hpre. }
  rewrite Hopts. reflexivity.
Qed.

End MoreOptions.

Module Strlcpy.

Lemma substring_length (m : nat) :
  forall s, String.length (substring 0 m s) = Nat.min m (String.length s).
Proof.
  induction m as [|m IH]; intros [|c s]; cbn [substring String.length Nat.min];
    try reflexivity.
  rewrite IH. reflexivity.
Qed.

Lemma substring_whole (m : nat) :
  forall s, (String.length s <= m)%nat -> substring 0 m s = s.
Proof.
  induction m as [|m IH]; intros [|c s] Hlen; cbn [substring String.length] in *;
    try reflexivity; try lia.
  rewrite IH by lia. reflexivity.
Qed.

End Strlcpy.

(** X12: the OID buffer holds 29 characters.  An argument of [-g] of at
    most 29 characters is kept as it is; a longer one is cut to its first
    29 characters, which is no OID of the table (they have 20), so that the
    lookup ends with the unknown-OID message for the cut text and exit code
    1 even when the argument starts with a known OID. *)
Theorem X12_oid_argument_is_cut_at_29
  (argv0 arg : string) (l : locals) :
  ((String.length arg <= 29)%nat -> strlcpy_oid arg = arg)
  /\ ((29 < String.length arg)%nat ->
      String.length (strlcpy_oid arg) = 29%nat
      /\ resolve xlate argv0 (strlcpy_oid arg) l
         = ([stderr (argv0 ++ ": ERROR: Unknown OID " ++ strlcpy_oid arg
                     ++ nl ++ nl);
             stdout (usage_text argv0)], Exit 1)).
Proof.
  split; [apply Strlcpy.substring_whole|].
  intros Hlong.
  assert (Hlen : String.length (strlcpy_oid arg) = 29%nat).
  { unfold strlcpy_oid. rewrite Strlcpy.substring_length. lia. }
  split; [exact Hlen|].
  apply Resolver.resolve_unknown, Resolver.gauge_value_unknown;
    intros Heq; rewrite Heq in Hlen; discriminate Hlen.
Qed.

(** X13: the scan of lines 185-197 over any table.  Past entries with other
    names, the first entry named like the request is the one printed and the
    program exits with code 0, whatever follows it; a sentinel met first
    gives the unknown-OID message, the usage text and exit code 1, whatever
    follows it; and a table that runs out without either is walked past its
    end. *)
Theorem X13_scan_stops_at_first_match_or_sentinel
  (pre : list oid_mib_xlate.t) (e : oid_mib_xlate.t)
  (rest : list oid_mib_xlate.t) (argv0 oid : string) (l : locals) :
  (forall x, In x pre ->
             exists name, oid_mib_xlate.oid x = Some name /\ name <> oid) ->
  (oid_mib_xlate.oid e = Some oid ->
   resolve (pre ++ e :: rest) argv0 oid l
   = (trace (print_gauge argv0 oid oid e l), Exit 0))
  /\ (oid_mib_xlate.oid e = None ->
      resolve (pre ++ e :: rest) argv0 oid l
      = ([stderr (argv0 ++ ": ERROR: Unknown OID " ++ oid ++ nl ++ nl);
          stdout (usage_text argv0)], Exit 1))
  /\ resolve pre argv0 oid l = ([], Undefined).
Proof.
  induction pre as [|x pre IH]; intros Hpre.
  - cbn [app resolve]. repeat split.
    + intros ->. rewrite String.eqb_refl.
      unfold print_gauge.
      destruct (oid_mib_xlate.int_val e); [reflexivity|].
      destruct (oid_mib_xlate.dbl_val e); reflexivity.
    + intros ->. reflexivity.
  - destruct (Hpre x (or_introl eq_refl)) as (name & Hname & Hneq).
    apply String.eqb_neq in Hneq.
    cbn [app resolve]. rewrite Hname, Hneq.
    apply IH. intros y Hy. apply Hpre. right. exact Hy.
Qed.

(** * The further properties at sample inputs *)

Lemma X1_witness :
  main SATELLITE_SET_gps_h 9 "gpssnmp" OID_USED late_sky
  = (prologue late_sky ++ rounds late_sky 0 5
     ++ [gps_waiting true; gps_read (status (polls late_sky 5)); gps_close;
         stdout (OID_USED ++ " = gauge: " ++ "4" ++ nl)],
     Exit 0).
Proof.
  apply (X1_sky_view_ends_the_wait SATELLITE_SET_gps_h "gpssnmp" OID_USED
           late_sky 5 9
           {| used := 4; visible := 5; snr_avg := Double.of_int 25 |} "4").
  - reflexivity.
  - intros j Hj. destruct j as [|[|[|[|[|j]]]]]; [reflexivity..|lia].
  - reflexivity.
  - discriminate.
  - discriminate.
  - vm_compute. reflexivity.
  - reflexivity.
  - lia.
Defined.

Lemma X2_witness :
  main SATELLITE_SET_gps_h 7 "gpssnmp" OID_USED frozen_clock
  = (prologue frozen_clock ++ rounds frozen_clock 0 7, Polling).
Proof.
  apply (X2_polls_on_while_the_clock_stands SATELLITE_SET_gps_h "gpssnmp"
           OID_USED frozen_clock 7).
  - discriminate.
  - reflexivity.
  - intros k. reflexivity.
Defined.

Lemma X3_witness :
  exists out err,
    on_stdout (trace (main SATELLITE_SET_gps_h 5 "gpssnmp" OID_USED read_fails))
    = out
    /\ on_stderr
         (trace (main SATELLITE_SET_gps_h 5 "gpssnmp" OID_USED read_fails))
       = err
    /\ ((1 = 0 /\ err = []
         /\ exists v, out = [(OID_USED ++ " = gauge: " ++ v ++ nl)%string])
        \/ (1 = 1 /\ out = []
            /\ (err = [("gpssnmp: ERROR: connection failed: "
                        ++ printf_d (open_status read_fails) ++ nl)%string]
                \/ err = [read_failed_msg] \/ err = [timeout_msg]))
        \/ (1 = 1 /\ out = [usage_text "gpssnmp"]
            /\ (err = [("gpssnmp" ++ ": ERROR: Missing option" ++ nl ++ nl)%string]
                \/ err = [("gpssnmp" ++ ": ERROR: Unknown OID " ++ OID_USED
                           ++ nl ++ nl)%string]))).
Proof.
  apply (X3_exit_code_and_output SATELLITE_SET_gps_h 5 "gpssnmp" OID_USED
           read_fails 1).
  reflexivity.
Defined.

Lemma X4_witness :
  exists s,
    follow not_open
      (trace (main SATELLITE_SET_gps_h 5 "gpssnmp" OID_USED (steady sky_5_4)))
    = Some s
    /\ (result (main SATELLITE_SET_gps_h 5 "gpssnmp" OID_USED (steady sky_5_4))
        = Exit 0 -> s = closed).
Proof.
  apply (X4_libgps_calls_in_order SATELLITE_SET_gps_h 5 "gpssnmp" OID_USED
           (steady sky_5_4)).
Defined.

Lemma X8_witness :
  timed_out {| tv_sec := 100; tv_nsec := 250000000 |}
    {| tv_sec := 111; tv_nsec := 250000000 |} = true.
Proof.
  apply (proj1 (X8_deadline_counts_whole_seconds
                  {| tv_sec := 100; tv_nsec := 250000000 |}
                  {| tv_sec := 111; tv_nsec := 250000000 |}
                  ltac:(unfold well_formed; cbn; lia)
                  ltac:(unfold well_formed; cbn; lia))).
  unfold elapsed_ns. cbn. lia.
Defined.

Lemma X9_witness :
  gpssnmp "3.25" "release" SATELLITE_SET_gps_h 5 "gpssnmp"
    ([opt "D" "2"; opt "g" OID_USED]
     ++ {| ch := "?"; optarg := EmptyString;
           diagnostic := Some ("gpssnmp: invalid option -- 'x'" ++ nl)%string |}
     :: [opt "g" OID_VISIBLE])
    (steady sky_5_4)
  = ([gps_enable_debug 2;
      core (stderr ("gpssnmp: invalid option -- 'x'" ++ nl));
      core (stdout (usage_text "gpssnmp"))], Exit 0).
Proof.
  apply (X9_help_ends_the_program "3.25" "release" SATELLITE_SET_gps_h 5
           "gpssnmp" [opt "D" "2"; opt "g" OID_USED]
           {| ch := "?"; optarg := EmptyString;
              diagnostic :=
                Some ("gpssnmp: invalid option -- 'x'" ++ nl)%string |}
           [opt "g" OID_VISIBLE] (steady sky_5_4));
    [reflexivity|discriminate..].
Defined.

Lemma X10_witness :
  gpssnmp "3.25" "release" SATELLITE_SET_gps_h 5 "gpssnmp"
    ([opt "D" "-1"; opt "g" OID_USED] ++ opt "V" EmptyString :: [])
    (steady sky_5_4)
  = (debug_calls [opt "D" "-1"; opt "g" OID_USED]
     ++ [core (stderr ("gpssnmp" ++ ": " ++ "3.25" ++ " (revision "
                       ++ "release" ++ ")" ++ nl))],
     Exit 0).
Proof.
  apply (X10_version_ends_the_program "3.25" "release" SATELLITE_SET_gps_h 5
           "gpssnmp" [opt "D" "-1"; opt "g" OID_USED]
           (opt "V" EmptyString) [] (steady sky_5_4));
    reflexivity.
Defined.

Lemma X11_witness :
  gpssnmp "3.25" "release" SATELLITE_SET_gps_h 5 "gpssnmp"
    ([opt "g" OID_VISIBLE] ++ opt "g" OID_USED :: [opt "D" " 3"])
    (steady sky_5_4)
  = (debug_calls [opt "g" OID_VISIBLE] ++ debug_calls [opt "D" " 3"]
     ++ map core
          (trace (main SATELLITE_SET_gps_h 5 "gpssnmp" (strlcpy_oid OID_USED)
                    (steady sky_5_4))),
     result (main SATELLITE_SET_gps_h 5 "gpssnmp" (strlcpy_oid OID_USED)
               (steady sky_5_4))).
Proof.
  apply (X11_last_oid_option_is_looked_up "3.25" "release"
           SATELLITE_SET_gps_h 5 "gpssnmp"
           [opt "g" OID_VISIBLE] [opt "D" " 3"] OID_USED (steady sky_5_4));
    reflexivity.
Defined.

Lemma X12_witness :
  String.length
    (strlcpy_oid (OID_USED ++ ".0.0.0.0.0.0")) = 29%nat
  /\ resolve xlate "gpssnmp" (strlcpy_oid (OID_USED ++ ".0.0.0.0.0.0"))
       {| used := 4; visible := 5; snr_avg := Double.of_int 25 |}
     = ([stderr ("gpssnmp" ++ ": ERROR: Unknown OID "
                 ++ strlcpy_oid (OID_USED ++ ".0.0.0.0.0.0") ++ nl ++ nl);
         stdout (usage_text "gpssnmp")], Exit 1).
Proof.
  apply (proj2 (X12_oid_argument_is_cut_at_29 "gpssnmp"
                  (OID_USED ++ ".0.0.0.0.0.0")
                  {| used := 4; visible := 5; snr_avg := Double.of_int 25 |})).
  cbn. lia.
Defined.

Lemma X13_witness :
  resolve
    ([ oid_mib_xlate.Build_t (Some OID_VISIBLE) None None
         (Some addr_visible) None ]
     ++ oid_mib_xlate.Build_t (Some OID_USED) None None (Some addr_used) None
     :: [ oid_mib_xlate.Build_t (Some OID_USED) None None
            (Some addr_visible) None ])
    "gpssnmp" OID_USED
    {| used := 4; visible := 5; snr_avg := Double.of_int 25 |}
  = (trace
       (print_gauge "gpssnmp" OID_USED OID_USED
          (oid_mib_xlate.Build_t (Some OID_USED) None None (Some addr_used)
             None)
          {| used := 4; visible := 5; snr_avg := Double.of_int 25 |}),
     Exit 0).
Proof.
  apply (proj1 (X13_scan_stops_at_first_match_or_sentinel
                  [ oid_mib_xlate.Build_t (Some OID_VISIBLE) None None
                      (Some addr_visible) None ]
                  (oid_mib_xlate.Build_t (Some OID_USED) None None
                     (Some addr_used) None)
                  [ oid_mib_xlate.Build_t (Some OID_USED) None None
                      (Some addr_visible) None ]
                  "gpssnmp" OID_USED
                  {| used := 4; visible := 5; snr_avg := Double.of_int 25 |}
                  ltac:(intros x [<-|[]]; exists OID_VISIBLE;
                        split; [reflexivity|discriminate]))).
  reflexivity.
Defined.

Lemma X14_witness :
  gpssnmp "3.25" "release" SATELLITE_SET_gps_h 5 "gpssnmp"
    [opt "D" "1"] (steady sky_5_4)
  = (debug_calls [opt "D" "1"]
     ++ [core (stderr ("gpssnmp" ++ ": ERROR: Missing option" ++ nl ++ nl));
         core (stdout (usage_text "gpssnmp"))],
     Exit 1).
Proof.
  apply (X14_no_oid_option_no_session "3.25" "release" SATELLITE_SET_gps_h 5
           "gpssnmp" [opt "D" "1"] (steady sky_5_4)).
  reflexivity.
Defined.

Lemma X15_witness :
  gpssnmp "3.25" "release" SATELLITE_SET_gps_h 5 "gpssnmp"
    ([opt "g" OID_USED] ++ opt "g" EmptyString :: [])
    (steady sky_5_4)
  = (debug_calls [opt "g" OID_USED] ++ debug_calls []
     ++ [core (stderr ("gpssnmp" ++ ": ERROR: Missing option" ++ nl ++ nl));
         core (stdout (usage_text "gpssnmp"))],
     Exit 1).
Proof.
  apply (X15_empty_oid_argument_counts_as_missing "3.25" "release"
           SATELLITE_SET_gps_h 5 "gpssnmp" [opt "g" OID_USED] []
           (steady sky_5_4));
    reflexivity.
Defined.

Lemma X16_witness :
  result (main SATELLITE_SET_gps_h 9 "gpssnmp" OID_USED eleven_at_3)
  <> Polling.
Proof.
  apply (X16_no_polling_past_the_deadline SATELLITE_SET_gps_h "gpssnmp"
           OID_USED eleven_at_3 3 9).
  - split; [discriminate | reflexivity].
  - split; [discriminate | reflexivity].
  - discriminate.
  - lia.
Defined.
